(** * PromptRefiner: the refine endpoint, the key setup form and the client pipeline

    A shallow embedding of
    - [src/app/api/refine/route.ts] (the [POST] handler),
    - [src/app/components/ApiKeySetup.tsx] ([handleSubmit]),
    - [src/app/components/PromptRefinerApp.tsx] ([handleApiKeySet],
      [handleApiKeyReset], the mount effect and the view switch),
    - [src/app/components/PromptRefiner.tsx] ([refinePrompt]),
    followed by the properties of the specification checked against them. *)

From Stdlib Require Import ZArith QArith Qreduction Lia.
From Stdlib Require Import Strings.String Strings.Ascii DecimalString.
From stdpp Require Import base option list gmap.

Set Warnings "-register-all".

Local Open Scope N_scope.
Local Open Scope list_scope.

(** ** JavaScript strings

    A JavaScript string is a sequence of UTF-16 code units. *)

Module JSString.

Definition jsstring : Type := list N.

(** [lit s] is the string literal [s] of the source (ASCII text). *)
Definition lit (s : String.string) : jsstring :=
  List.map N_of_ascii (list_ascii_of_string s).

(** The double quote character, U+0022. *)
Definition dquote : jsstring := [34].

(** ECMAScript [WhiteSpace] and [LineTerminator] code points: what
    [String.prototype.trim] removes at both ends. *)
Definition is_white_space (c : N) : bool :=
  (c =? 9) || (c =? 10) || (c =? 11) || (c =? 12) || (c =? 13) || (c =? 32)
  || (c =? 160) || (c =? 5760)
  || ((8192 <=? c) && (c <=? 8202))
  || (c =? 8232) || (c =? 8233) || (c =? 8239) || (c =? 8287)
  || (c =? 12288) || (c =? 65279).

Fixpoint trimStart (s : jsstring) : jsstring :=
  match s with
  | c :: s' => if is_white_space c then trimStart s' else s
  | [] => []
  end.

Definition trimEnd (s : jsstring) : jsstring := rev (trimStart (rev s)).

(** [s.trim()] *)
Definition trim (s : jsstring) : jsstring := trimEnd (trimStart s).

(** [s.startsWith(p)] *)
Fixpoint startsWith (s p : jsstring) : bool :=
  match p, s with
  | [], _ => true
  | _ :: _, [] => false
  | a :: p', b :: s' => (a =? b) && startsWith s' p'
  end.

(** Truthiness of a string: every string but the empty one. *)
Definition nonempty (s : jsstring) : bool :=
  match s with [] => false | _ :: _ => true end.

(** Decimal digits of a natural number, as [String(n)] prints an integer
    below 10^21. *)
Definition of_nat (n : nat) : jsstring :=
  lit (DecimalString.NilZero.string_of_uint (Nat.to_uint n)).

End JSString.
Export JSString.

(** ** JavaScript numbers

    A number is an IEEE 754 double: NaN, an infinity, or a finite value.
    Every finite double is a rational, and the operations the sources use on
    numbers (truthiness, [Math.min], [Math.max]) are exact on doubles, so a
    finite double is carried as the rational it denotes.  The two zeros are
    one value here: both are falsy and neither is ever returned by the
    clarity clamp. *)

Module JSNumber.

Inductive number : Type :=
  | NaN
  | NegInf
  | Fin (q : Q)
  | PosInf.

Definition of_Z (z : Z) : number := Fin (inject_Z z).

(** [a <= b] on numbers that are not NaN. *)
Definition leb (a b : number) : bool :=
  match a, b with
  | NaN, _ | _, NaN => false
  | NegInf, _ => true
  | _, PosInf => true
  | Fin p, Fin q => Qle_bool p q
  | _, _ => false
  end.

(** [Math.min(a, b)] on numbers. *)
Definition min (a b : number) : number :=
  match a, b with
  | NaN, _ | _, NaN => NaN
  | _, _ => if leb a b then a else b
  end.

(** [Math.max(a, b)] on numbers. *)
Definition max (a b : number) : number :=
  match a, b with
  | NaN, _ | _, NaN => NaN
  | _, _ => if leb b a then a else b
  end.

(** Truthiness of a number: not NaN and not zero. *)
Definition truthy (n : number) : bool :=
  match n with
  | NaN => false
  | Fin q => negb (Qeq_bool q 0)
  | _ => true
  end.

(** The number is a mathematical integer. *)
Definition is_integer (n : number) : bool :=
  match n with
  | Fin q => Pos.eqb (Qden (Qred q)) 1
  | _ => false
  end.

(** [lo <= n <= hi] for a finite [n]. *)
Definition in_range (lo hi : Z) (n : number) : Prop :=
  match n with
  | Fin q => (inject_Z lo <= q)%Q /\ (q <= inject_Z hi)%Q
  | _ => False
  end.

End JSNumber.

(** ** JavaScript values

    The values [JSON.parse] and [request.json()] produce, with [undefined]
    for an absent property.  An object lists its own properties, each key
    once, as [JSON.parse] builds it. *)

Module JS.
Import JSNumber.

Inductive value : Type :=
  | JUndefined
  | JNull
  | JBool (b : bool)
  | JNum (n : number)
  | JStr (s : jsstring)
  | JArr (elems : list value)
  | JObj (props : list (jsstring * value)).

(** The primitives of the platform that the sources call and that are not
    written out here: [StringToNumber] (the conversion of a string to a
    number), [Number::toString] and [JSON.parse] ([None] when it throws a
    [SyntaxError]). *)
Class Platform : Type := {
  StringToNumber : jsstring -> number;
  NumberToString : number -> jsstring;
  JSON_parse : jsstring -> option value;
}.

Definition jsstring_eqb (a b : jsstring) : bool := bool_decide (a = b).

(** Own property lookup in the property list of an object. *)
Fixpoint own_property (props : list (jsstring * value)) (name : jsstring)
  : option value :=
  match props with
  | [] => None
  | (k, v) :: rest => if jsstring_eqb k name then Some v else own_property rest name
  end.

(** [typeof v]; a parsed JSON value is never a function. *)
Definition typeof (v : value) : jsstring :=
  match v with
  | JUndefined => lit "undefined"
  | JBool _ => lit "boolean"
  | JNum _ => lit "number"
  | JStr _ => lit "string"
  | JNull | JArr _ | JObj _ => lit "object"
  end.

(** [ToBoolean]: the falsy values are [undefined], [null], [false], [0],
    [NaN] and the empty string. *)
Definition ToBoolean (v : value) : bool :=
  match v with
  | JUndefined | JNull => false
  | JBool b => b
  | JNum n => truthy n
  | JStr s => nonempty s
  | JArr _ | JObj _ => true
  end.

(** [a || b] *)
Definition or_else (a b : value) : value := if ToBoolean a then a else b.

Definition is_nullish (v : value) : bool :=
  match v with JUndefined | JNull => true | _ => false end.

(** [v.name] for the data property names the sources read ([prompt],
    [apiKey], [choices], [message], [content], [suggestions], [id],
    [refined], [clarity], [explanation]): none of them is defined on a
    prototype, so only an object can hold one.  [None] is the [TypeError]
    thrown on [undefined] and [null]. *)
Definition get (v : value) (name : jsstring) : option value :=
  match v with
  | JUndefined | JNull => None
  | JObj props => Some (default JUndefined (own_property props name))
  | _ => Some JUndefined
  end.

(** [v[i]] for an array index [i]. *)
Definition get_index (v : value) (i : nat) : option value :=
  match v with
  | JUndefined | JNull => None
  | JArr elems => Some (nth i elems JUndefined)
  | JStr s => Some (match nth_error s i with Some c => JStr [c] | None => JUndefined end)
  | JObj props => Some (default JUndefined (own_property props (of_nat i)))
  | _ => Some JUndefined
  end.

Section Coercions.
Context `{Platform}.

(** [ToString], as a template literal and [JSON.parse] apply it.  An array
    joins its elements with commas, [null] printing as the empty string; a
    plain object prints as [[object Object]], unless it has an own
    [toString] property: a JSON value is not callable, [valueOf] of
    [Object.prototype] returns the object itself, and the conversion throws
    ([None]). *)
Fixpoint ToString (v : value) : option jsstring :=
  match v with
  | JUndefined => Some (lit "undefined")
  | JNull => Some (lit "null")
  | JBool true => Some (lit "true")
  | JBool false => Some (lit "false")
  | JNum n => Some (NumberToString n)
  | JStr s => Some s
  | JArr elems =>
      (fix join (l : list value) : option jsstring :=
         match l with
         | [] => Some []
         | x :: rest =>
             match (if is_nullish x then Some [] else ToString x) with
             | None => None
             | Some s =>
                 match rest with
                 | [] => Some s
                 | _ :: _ =>
                     match join rest with
                     | None => None
                     | Some r => Some (s ++ lit "," ++ r)
                     end
                 end
             end
         end) elems
  | JObj props =>
      match own_property props (lit "toString") with
      | Some _ => None
      | None => Some (lit "[object Object]")
      end
  end.

(** [ToNumber], as [Math.min] applies it to its arguments.  An array or an
    object is first converted to a primitive, which is its string. *)
Definition ToNumber (v : value) : option number :=
  match v with
  | JUndefined => Some NaN
  | JNull => Some (of_Z 0)
  | JBool true => Some (of_Z 1)
  | JBool false => Some (of_Z 0)
  | JNum n => Some n
  | JStr s => Some (StringToNumber s)
  | JArr _ | JObj _ =>
      match ToString v with
      | None => None
      | Some s => Some (StringToNumber s)
      end
  end.

End Coercions.

End JS.

(** ** The refine endpoint: [POST] of [src/app/api/refine/route.ts] *)

Module Route.
Import JSNumber JS.

(** What the handler passes to [fetch]: the URL, the method, the two
    headers and the body before [JSON.stringify]. *)
Record ChatMessage : Type := {
  role : jsstring;
  content : jsstring;
}.

Record ChatBody : Type := {
  model : jsstring;
  messages : list ChatMessage;
  max_tokens : Z;
  temperature : Q;
}.

Record FetchRequest : Type := {
  url : jsstring;
  method : jsstring;
  Authorization : jsstring;
  Content_Type : jsstring;
  body : ChatBody;
}.

(** What [fetch] gives back: it rejects, or it resolves to a response with
    its [ok] flag, its status and the outcome of [response.json()] ([None]
    when that rejects). *)
Inductive FetchResult : Type :=
  | FetchRejected
  | FetchResponse (ok : bool) (status : Z) (json : option value).

(** [interface RefinedPrompt].  The interface is erased at run time: [id],
    [refined] and [explanation] hold whatever value the upstream reply
    carried, and [clarity] the number [Math.max] returned. *)
Record RefinedPrompt : Type := {
  id : value;
  refined : value;
  clarity : number;
  explanation : value;
}.

(** The two shapes of data handed to [NextResponse.json], and the response
    with its status (200 when none is given). *)
Inductive ResponseData : Type :=
  | ErrorData (error : jsstring)
  | SuggestionsData (suggestions : list RefinedPrompt).

Record Response : Type := {
  data : ResponseData;
  status : Z;
}.

Definition NextResponse_json (d : ResponseData) (st : option Z) : Response :=
  {| data := d; status := default 200%Z st |}.

(** *** Control flow of the handler

    A step of the handler yields a value, returns a response early, or
    throws; along the way it records the calls made to [fetch]. *)
Inductive completion (A : Type) : Type :=
  | Normal (a : A)
  | Return (r : Response)
  | Throw.
Arguments Normal {A} a.
Arguments Return {A} r.
Arguments Throw {A}.

Definition Handler (A : Type) : Type := list FetchRequest * completion A.

Definition ret {A} (a : A) : Handler A := ([], Normal a).
Definition return_ {A} (r : Response) : Handler A := ([], Return r).
Definition throw {A} : Handler A := ([], Throw).

Definition bind {A B} (m : Handler A) (k : A -> Handler B) : Handler B :=
  match m with
  | (calls, Normal a) => let '(calls', c) := k a in (calls ++ calls', c)
  | (calls, Return r) => (calls, Return r)
  | (calls, Throw) => (calls, Throw)
  end.

(** A conversion or property access that throws a [TypeError] on [None]. *)
Definition lift {A} (o : option A) : Handler A :=
  match o with
  | Some a => ret a
  | None => throw
  end.

Declare Scope handler_scope.
Delimit Scope handler_scope with handler.
Notation "'do' x <- m ; k" := (bind m (fun x => k))
  (at level 10, x name, m at level 100, k at level 200) : handler_scope.

(** [try { ... } catch (error) { return NextResponse.json({ error: 'Failed
    to refine prompt' }, { status: 500 }) }] around the whole handler. *)
Definition try_catch (m : Handler Response) : list FetchRequest * Response :=
  match m with
  | (calls, Normal r) | (calls, Return r) => (calls, r)
  | (calls, Throw) =>
      (calls, NextResponse_json (ErrorData (lit "Failed to refine prompt")) (Some 500%Z))
  end.

Section Handler.
Context `{Platform}.
Local Open Scope handler_scope.

(** [process.env.OPENAI_API_KEY]: a string when the variable is set,
    [undefined] otherwise. *)
Definition env_value (env : option jsstring) : value :=
  match env with
  | Some k => JStr k
  | None => JUndefined
  end.

(** The fixed system instruction. *)
Definition systemPrompt : jsstring :=
  lit "You are an AI prompt refinement expert. Given a user's prompt, provide 1-3 refined versions that are more clear, specific, and effective."
  ++ [10; 10] ++ lit "For each refinement, provide:"
  ++ [10] ++ lit "1. A refined version of the prompt"
  ++ [10] ++ lit "2. A clarity score from 1-10 (10 being most clear and specific)"
  ++ [10] ++ lit "3. A brief, helpful explanation of why this refinement is better"
  ++ [10; 10] ++ lit "Make explanations engaging and sometimes humorous (inspired by Grok's style). Focus on common prompt improvement techniques like:"
  ++ [10] ++ lit "- Adding context and specificity"
  ++ [10] ++ lit "- Clarifying the desired format or length"
  ++ [10] ++ lit "- Including examples when helpful"
  ++ [10] ++ lit "- Specifying the audience or use case"
  ++ [10; 10] ++ lit "Return your response as a JSON object with this structure:"
  ++ [10] ++ lit "{"
  ++ [10] ++ lit "  " ++ dquote ++ lit "suggestions" ++ dquote ++ lit ": ["
  ++ [10] ++ lit "    {"
  ++ [10] ++ lit "      " ++ dquote ++ lit "id" ++ dquote ++ lit ": " ++ dquote ++ lit "1" ++ dquote ++ lit ","
  ++ [10] ++ lit "      " ++ dquote ++ lit "refined" ++ dquote ++ lit ": " ++ dquote ++ lit "refined prompt text" ++ dquote ++ lit ","
  ++ [10] ++ lit "      " ++ dquote ++ lit "clarity" ++ dquote ++ lit ": 8,"
  ++ [10] ++ lit "      " ++ dquote ++ lit "explanation" ++ dquote ++ lit ": " ++ dquote ++ lit "Brief explanation of why this is better" ++ dquote
  ++ [10] ++ lit "    }"
  ++ [10] ++ lit "  ]"
  ++ [10] ++ lit "}".

(** The argument of [fetch] for a resolved key (already inside the
    [Bearer] template) and a prompt. *)
Definition chat_request (bearer prompt : jsstring) : FetchRequest :=
  {| url := lit "https://api.openai.com/v1/chat/completions";
     method := lit "POST";
     Authorization := bearer;
     Content_Type := lit "application/json";
     body :=
       {| model := lit "gpt-3.5-turbo";
          messages :=
            [ {| role := lit "system"; content := systemPrompt |};
              {| role := lit "user";
                 content := lit "Original prompt: " ++ dquote ++ prompt ++ dquote |} ];
          max_tokens := 800;
          temperature := 7 # 10 |} |}.

(** [await fetch(...)]: the call is recorded, and a rejection is thrown. *)
Definition fetch (upstream : FetchRequest -> FetchResult) (rq : FetchRequest)
  : Handler (bool * Z * option value) :=
  ([rq],
   match upstream rq with
   | FetchRejected => Throw
   | FetchResponse ok st json => Normal (ok, st, json)
   end).

(** The suggestion substituted when [JSON.parse] throws. *)
Definition fallback_suggestion (prompt : jsstring) : value :=
  JObj
    [ (lit "id", JStr (lit "1"));
      (lit "refined",
       JStr (lit "Be more specific about what you want to know: " ++ dquote
             ++ trim prompt ++ dquote
             ++ lit " - what particular aspect interests you most?"));
      (lit "clarity", JNum (of_Z 6));
      (lit "explanation",
       JStr (lit "Adding specificity helps get more targeted and useful responses.")) ].

Definition fallback_response (prompt : jsstring) : value :=
  JObj [ (lit "suggestions", JArr [fallback_suggestion prompt]) ].

(** [try { parsedResponse = JSON.parse(content) } catch { parsedResponse =
    fallback }].  [JSON.parse] converts its argument to a string first, and
    that conversion runs inside the [try] as well. *)
Definition parse_content (prompt : jsstring) (content : value) : value :=
  match ToString content with
  | None => fallback_response prompt
  | Some text =>
      match JSON_parse text with
      | None => fallback_response prompt
      | Some v => v
      end
  end.

(** [Math.max(1, Math.min(10, clarity || 5))] *)
Definition sanitize_clarity (clarity : value) : option number :=
  match ToNumber (or_else clarity (JNum (of_Z 5))) with
  | None => None
  | Some n => Some (max (of_Z 1) (min (of_Z 10) n))
  end.

(** The callback of [.map]: one sanitized suggestion. *)
Definition sanitize (prompt : jsstring) (index : nat) (suggestion : value)
  : option RefinedPrompt :=
  match get suggestion (lit "id") with
  | None => None
  | Some i =>
  match get suggestion (lit "refined") with
  | None => None
  | Some r =>
  match get suggestion (lit "clarity") with
  | None => None
  | Some c =>
  match sanitize_clarity c with
  | None => None
  | Some n =>
  match get suggestion (lit "explanation") with
  | None => None
  | Some e =>
      Some {| id := or_else i (JStr (of_nat (index + 1)));
              refined := or_else r (JStr prompt);
              clarity := n;
              explanation := or_else e (JStr (lit "General improvement suggestion.")) |}
  end end end end end.

(** [l.map(f)] with the index, stopping at the first callback that throws. *)
Fixpoint map_indexed {A B} (f : nat -> A -> option B) (index : nat) (l : list A)
  : option (list B) :=
  match l with
  | [] => Some []
  | a :: rest =>
      match f index a with
      | None => None
      | Some b =>
          match map_indexed f (S index) rest with
          | None => None
          | Some bs => Some (b :: bs)
          end
      end
  end.

(** [(parsedResponse.suggestions || []).slice(0, 3).map(...)].  Only an
    array has both [slice] and [map]: on a string [slice] returns a string,
    which has no [map], and a JSON value stored under [slice] or [map] is
    not callable, so every other truthy value throws a [TypeError]. *)
Definition sanitize_suggestions (prompt : jsstring) (parsedResponse : value)
  : option (list RefinedPrompt) :=
  match get parsedResponse (lit "suggestions") with
  | None => None
  | Some s =>
      match or_else s (JArr []) with
      | JArr elems => map_indexed (sanitize prompt) 0 (firstn 3 elems)
      | _ => None
      end
  end.

(** [data.choices[0]?.message?.content] *)
Definition message_content (data : value) : option value :=
  match get data (lit "choices") with
  | None => None
  | Some choices =>
      match get_index choices 0 with
      | None => None
      | Some choice =>
          if is_nullish choice then Some JUndefined
          else
            match get choice (lit "message") with
            | None => None
            | Some message =>
                if is_nullish message then Some JUndefined
                else get message (lit "content")
            end
      end
  end.

(** The body of [POST], inside its [try]. *)
Definition POST_body (request_json : option value) (env : option jsstring)
    (upstream : FetchRequest -> FetchResult) : Handler Response :=
  do body <- lift request_json;
  do prompt <- lift (get body (lit "prompt"));
  do apiKey <- lift (get body (lit "apiKey"));
  if negb (ToBoolean prompt) || negb (jsstring_eqb (typeof prompt) (lit "string"))
  then return_ (NextResponse_json (ErrorData (lit "Invalid prompt provided")) (Some 400%Z))
  else
  match prompt with
  | JStr prompt =>
      let openaiApiKey := or_else apiKey (env_value env) in
      if negb (ToBoolean openaiApiKey)
      then return_ (NextResponse_json (ErrorData (lit "OpenAI API key not provided")) (Some 400%Z))
      else
      do key <- lift (ToString openaiApiKey);
      do response <- fetch upstream (chat_request (lit "Bearer " ++ key) prompt);
      let '(ok, _, json) := response in
      if negb ok then throw
      else
      do data <- lift json;
      do content <- lift (message_content data);
      if negb (ToBoolean content) then throw
      else
      let parsedResponse := parse_content prompt content in
      do suggestions <- lift (sanitize_suggestions prompt parsedResponse);
      ret (NextResponse_json (SuggestionsData suggestions) None)
  | _ => throw
  end.

(** [export async function POST(request)]: the request is given by the
    outcome of [request.json()] ([None] when it rejects), the environment by
    the value of [OPENAI_API_KEY], and the upstream API by what [fetch]
    answers to each call.  The result is the list of calls made to [fetch]
    and the response. *)
Definition POST (request_json : option value) (env : option jsstring)
    (upstream : FetchRequest -> FetchResult) : list FetchRequest * Response :=
  try_catch (POST_body request_json env upstream).

End Handler.

End Route.

(** ** The key setup form and the application shell

    [src/app/components/ApiKeySetup.tsx] and
    [src/app/components/PromptRefinerApp.tsx]. *)

Module KeyManager.

(** [sessionStorage]: string keys, string values. *)
Abbreviation Storage := (gmap jsstring jsstring).

Definition getItem (s : Storage) (key : jsstring) : option jsstring := s !! key.
Definition setItem (key value : jsstring) (s : Storage) : Storage := <[key := value]> s.
Definition removeItem (key : jsstring) (s : Storage) : Storage := delete key s.

(** [setItem] stores the string of its argument; an argument that was not
    passed is [undefined]. *)
Definition String_of (arg : option jsstring) : jsstring :=
  match arg with
  | Some s => s
  | None => lit "undefined"
  end.

(** State of [ApiKeySetup]: three [useState] cells. *)
Record SetupState : Type := {
  apiKey : jsstring;
  showKey : bool;
  error : jsstring;
}.

Definition setError (msg : jsstring) (st : SetupState) : SetupState :=
  {| apiKey := apiKey st; showKey := showKey st; error := msg |}.

(** [handleSubmit]: the new form state, and the argument of [onApiKeySet]
    when the callback is invoked. *)
Definition handleSubmit (st : SetupState) : SetupState * option jsstring :=
  if negb (nonempty (trim (apiKey st)))
  then (setError (lit "Please enter your OpenAI API key") st, None)
  else if negb (startsWith (apiKey st) (lit "sk-"))
  then (setError (lit "OpenAI API keys start with " ++ dquote ++ lit "sk-" ++ dquote) st, None)
  else (setError [] st, Some (trim (apiKey st))).

(** State of [PromptRefinerApp], with the session storage it writes.
    [app_apiKey] is [string | null]; [selectedModel] is the argument
    [handleApiKeySet] received, [None] when it was not passed. *)
Record App : Type := {
  sessionStorage : Storage;
  app_apiKey : option jsstring;
  selectedModel : option jsstring;
  isLoading : bool;
}.

(** The component before its mount effect has run. *)
Definition mount (s : Storage) : App :=
  {| sessionStorage := s;
     app_apiKey := None;
     selectedModel := Some (lit "gpt-4o-mini");
     isLoading := true |}.

(** Truthiness of a [string | null]. *)
Definition is_set (k : option jsstring) : bool :=
  match k with
  | Some s => nonempty s
  | None => false
  end.

(** The mount effect: read the stored key and model. *)
Definition useEffect_mount (a : App) : App :=
  let storedApiKey := getItem (sessionStorage a) (lit "openai-api-key") in
  let storedModel := getItem (sessionStorage a) (lit "openai-model") in
  {| sessionStorage := sessionStorage a;
     app_apiKey := if is_set storedApiKey then storedApiKey else app_apiKey a;
     selectedModel := if is_set storedModel then storedModel else selectedModel a;
     isLoading := false |}.

(** [handleApiKeySet(key, model)] (the variant with a model). *)
Definition handleApiKeySet (key : jsstring) (model : option jsstring) (a : App) : App :=
  {| sessionStorage :=
       setItem (lit "openai-model") (String_of model)
         (setItem (lit "openai-api-key") key (sessionStorage a));
     app_apiKey := Some key;
     selectedModel := model;
     isLoading := isLoading a |}.

(** [handleApiKeySet(key)] (the variant without a model). *)
Definition handleApiKeySet_key (key : jsstring) (a : App) : App :=
  {| sessionStorage := setItem (lit "openai-api-key") key (sessionStorage a);
     app_apiKey := Some key;
     selectedModel := selectedModel a;
     isLoading := isLoading a |}.

(** [handleApiKeyReset] (the variant with a model, lines 33-38). *)
Definition handleApiKeyReset (a : App) : App :=
  {| sessionStorage :=
       removeItem (lit "openai-model") (removeItem (lit "openai-api-key") (sessionStorage a));
     app_apiKey := None;
     selectedModel := Some (lit "gpt-4o-mini");
     isLoading := isLoading a |}.

(** [handleApiKeyReset] (the variant without a model, lines 81-84): only
    the key is removed. *)
Definition handleApiKeyReset_key (a : App) : App :=
  {| sessionStorage := removeItem (lit "openai-api-key") (sessionStorage a);
     app_apiKey := None;
     selectedModel := selectedModel a;
     isLoading := isLoading a |}.

(** What the shell renders. *)
Inductive View : Type :=
  | Spinner
  | ApiKeySetup
  | PromptRefiner.

Definition render (a : App) : View :=
  if isLoading a then Spinner
  else if negb (is_set (app_apiKey a)) then ApiKeySetup
  else PromptRefiner.

(** The two states of the key/session manager, read off the view. *)
Inductive ManagerState : Type :=
  | Unconfigured
  | Ready.

Definition manager_state (a : App) : option ManagerState :=
  match render a with
  | Spinner => None
  | ApiKeySetup => Some Unconfigured
  | PromptRefiner => Some Ready
  end.

(** The form mounted in the shell: a submit runs [handleSubmit] and, when it
    invokes the callback, the shell's [onApiKeySet].  [ApiKeySetup] passes
    one argument, so the handler with a model receives [undefined] for it.
    The result also counts the invocations of the callback. *)
Record System : Type := {
  form : SetupState;
  app : App;
  callbacks : nat;
}.

Definition submit (onApiKeySet : jsstring -> App -> App) (sys : System) : System :=
  match handleSubmit (form sys) with
  | (form', None) => {| form := form'; app := app sys; callbacks := callbacks sys |}
  | (form', Some key) =>
      {| form := form'; app := onApiKeySet key (app sys); callbacks := S (callbacks sys) |}
  end.

(** The two versions of the shell's callback. *)
Definition onApiKeySet_with_model : jsstring -> App -> App :=
  fun key => handleApiKeySet key None.

Definition onApiKeySet_key_only : jsstring -> App -> App := handleApiKeySet_key.

End KeyManager.

(** ** The client pipeline: [refinePrompt] of
    [src/app/components/PromptRefiner.tsx]

    [refinePrompt] is an [async] function with one [await]: it runs up to
    [axios.post], is suspended, and is resumed when the promise of that call
    settles.  The component is single threaded, so an execution is a
    sequence of events: a dispatch of [refinePrompt] by the debounced
    wrapper, or the settling of a call in flight. *)

Module Pipeline.
Import Route.

(** Why [axios.post] rejected: an axios error with its
    [response?.data?.error] (when there is one) and its [message], or
    anything else. *)
Inductive Rejection : Type :=
  | AxiosError (response_error : option jsstring) (message : jsstring)
  | OtherError.

(** The four [useState] cells the pipeline writes, the calls made to
    [axios.post] in dispatch order (prompt and key), and the calls that have
    settled. *)
Record State : Type := {
  suggestions : list RefinedPrompt;
  isLoading : bool;
  error : option jsstring;
  posted : list (jsstring * jsstring);
  settled : gset nat;
}.

Definition initial : State :=
  {| suggestions := []; isLoading := false; error := None;
     posted := []; settled := ∅ |}.

(** [refinePrompt(prompt)] up to its [await]. *)
Definition refinePrompt_start (apiKey prompt : jsstring) (st : State) : State :=
  if negb (nonempty (trim prompt))
  then {| suggestions := []; isLoading := isLoading st; error := error st;
          posted := posted st; settled := settled st |}
  else {| suggestions := suggestions st; isLoading := true; error := None;
          posted := posted st ++ [(prompt, apiKey)]; settled := settled st |}.

(** After the [await], when the call resolved:
    [setSuggestions(response.data.suggestions)], then [finally]. *)
Definition refinePrompt_resolved (response : list RefinedPrompt) (st : State) : State :=
  {| suggestions := response; isLoading := false; error := error st;
     posted := posted st; settled := settled st |}.

(** [err.response?.data?.error || err.message || 'Failed to refine prompt'] *)
Definition error_message (err : Rejection) : jsstring :=
  match err with
  | AxiosError response_error message =>
      match response_error with
      | Some (c :: e) => c :: e
      | _ =>
          match message with
          | c :: m => c :: m
          | [] => lit "Failed to refine prompt"
          end
      end
  | OtherError => lit "An unexpected error occurred"
  end.

(** After the [await], when the call rejected: the [catch], then
    [finally]. *)
Definition refinePrompt_rejected (err : Rejection) (st : State) : State :=
  {| suggestions := []; isLoading := false; error := Some (error_message err);
     posted := posted st; settled := settled st |}.

Inductive Event : Type :=
  | Dispatch (prompt : jsstring)
  | Resolve (call : nat) (response : list RefinedPrompt)
  | Reject (call : nat) (err : Rejection).

(** A call is in flight when it was posted and has not settled. *)
Definition in_flight (st : State) (call : nat) : bool :=
  bool_decide (call < length (posted st))%nat && bool_decide (call ∉ settled st).

Definition settle (call : nat) (st : State) : State :=
  {| suggestions := suggestions st; isLoading := isLoading st; error := error st;
     posted := posted st; settled := {[call]} ∪ settled st |}.

(** One event; the settling of a call that is not in flight cannot happen
    and changes nothing. *)
Definition step (apiKey : jsstring) (st : State) (e : Event) : State :=
  match e with
  | Dispatch prompt => refinePrompt_start apiKey prompt st
  | Resolve call response =>
      if in_flight st call then refinePrompt_resolved response (settle call st) else st
  | Reject call err =>
      if in_flight st call then refinePrompt_rejected err (settle call st) else st
  end.

Definition run (apiKey : jsstring) (st : State) (events : list Event) : State :=
  fold_left (step apiKey) events st.

(** The call most recently dispatched. *)
Definition latest_call (st : State) : option nat :=
  match length (posted st) with
  | O => None
  | S n => Some n
  end.

End Pipeline.

(** ** Vocabulary of the properties *)

Module Contract.
Import JSNumber JS Route.

Section Contract.
Context `{Platform}.

(** The request body destructures to a non-empty string prompt and to a
    credential (from the request, else from the environment) that is truthy
    and prints as [key]. *)
Definition valid_request (body : value) (env : option jsstring)
    (prompt key : jsstring) : Prop :=
  get body (lit "prompt") = Some (JStr prompt) /\
  nonempty prompt = true /\
  exists apiKey,
    get body (lit "apiKey") = Some apiKey /\
    ToBoolean (or_else apiKey (env_value env)) = true /\
    ToString (or_else apiKey (env_value env)) = Some key.

(** The upstream API answers the call with a success status and a body
    whose first choice carries the truthy message content [content]. *)
Definition replies (upstream : FetchRequest -> FetchResult) (rq : FetchRequest)
    (content : value) : Prop :=
  exists st reply,
    upstream rq = FetchResponse true st (Some reply) /\
    message_content reply = Some content /\
    ToBoolean content = true.

(** [JSON.parse(content)] returns [parsed]. *)
Definition parses_to (content parsed : value) : Prop :=
  exists text, ToString content = Some text /\ JSON_parse text = Some parsed.

(** [JSON.parse(content)] throws. *)
Definition parse_throws (content : value) : Prop :=
  match ToString content with
  | Some text => JSON_parse text = None
  | None => True
  end.

End Contract.

(** An entry of a valid suggestions array: an object whose [clarity], when
    present, is a number. *)
Definition suggestion_entry (e : value) : Prop :=
  match e with
  | JObj props =>
      match own_property props (lit "clarity") with
      | None | Some (JNum _) => True
      | Some _ => False
      end
  | _ => False
  end.

(** The upstream clarity is absent, [null], a boolean or a number. *)
Definition numeric_or_absent (c : value) : Prop :=
  match c with
  | JUndefined | JNull | JBool _ | JNum _ => True
  | _ => False
  end.

(** The upstream clarity is not a fractional number. *)
Definition not_fractional (c : value) : Prop :=
  match c with
  | JNum (Fin q) => is_integer (Fin q) = true
  | _ => True
  end.

(** The response of a success: status 200 with the suggestions. *)
Definition ok_response (suggestions : list RefinedPrompt) : Response :=
  {| data := SuggestionsData suggestions; status := 200 |}.

(** The response of a failure: an error message and its status. *)
Definition error_response (st : Z) (message : jsstring) : Response :=
  {| data := ErrorData message; status := st |}.

End Contract.

(** ** Concrete requests and replies

    The requests and upstream replies of [route.test.ts], and a platform to
    run the handler on them. *)

Module Examples.
Import JSNumber JS Route.

(** [{ prompt: 'Test prompt' }] *)
Definition test_request : value :=
  JObj [ (lit "prompt", JStr (lit "Test prompt")) ].

(** [{ prompt: 'Test prompt', apiKey: 'sk-client' }] *)
Definition keyed_request : value :=
  JObj [ (lit "prompt", JStr (lit "Test prompt"));
         (lit "apiKey", JStr (lit "sk-client")) ].

(** [{ choices: [{ message: { content } }] }] with status 200, whatever the
    call. *)
Definition reply_with (content : value) : FetchRequest -> FetchResult :=
  fun _ =>
    FetchResponse true 200
      (Some (JObj [ (lit "choices",
                     JArr [ JObj [ (lit "message",
                                    JObj [ (lit "content", content) ]) ] ]) ])).

Definition quoted (s : String.string) : jsstring := dquote ++ lit s ++ dquote.

(** The JSON text [{"suggestions":[{"clarity":7.5}]}] and its value. *)
Definition fractional_text : jsstring :=
  lit "{" ++ quoted "suggestions" ++ lit ":[{" ++ quoted "clarity" ++ lit ":7.5}]}".
Definition fractional_value : value :=
  JObj [ (lit "suggestions", JArr [ JObj [ (lit "clarity", JNum (Fin (15 # 2))) ] ]) ].

(** The JSON text [{"suggestions":{}}] and its value. *)
Definition not_array_text : jsstring :=
  lit "{" ++ quoted "suggestions" ++ lit ":{}}".
Definition not_array_value : value :=
  JObj [ (lit "suggestions", JObj []) ].

(** The JSON text [{}] and its value. *)
Definition empty_object_text : jsstring := lit "{}".
Definition empty_object_value : value := JObj [].

(** The JSON text
    [{"suggestions":[{"clarity":15},{"clarity":-5},{"clarity":0},{"clarity":7},{}]}]
    and its value. *)
Definition five_text : jsstring :=
  lit "{" ++ quoted "suggestions" ++ lit ":[{" ++ quoted "clarity" ++ lit ":15},{"
  ++ quoted "clarity" ++ lit ":-5},{" ++ quoted "clarity" ++ lit ":0},{"
  ++ quoted "clarity" ++ lit ":7},{}]}".
Definition five_entries : list value :=
  [ JObj [ (lit "clarity", JNum (of_Z 15)) ];
    JObj [ (lit "clarity", JNum (of_Z (-5))) ];
    JObj [ (lit "clarity", JNum (of_Z 0)) ];
    JObj [ (lit "clarity", JNum (of_Z 7)) ];
    JObj [] ].
Definition five_value : value := JObj [ (lit "suggestions", JArr five_entries) ].

(** The JSON text [{"suggestions":[{"clarity":"high"}]}] and its value. *)
Definition high_text : jsstring :=
  lit "{" ++ quoted "suggestions" ++ lit ":[{" ++ quoted "clarity" ++ lit ":"
  ++ quoted "high" ++ lit "}]}".
Definition high_value : value :=
  JObj [ (lit "suggestions", JArr [ JObj [ (lit "clarity", JStr (lit "high")) ] ]) ].

(** The text of the malformed reply of the tests; it is not JSON. *)
Definition invalid_text : jsstring := lit "Invalid JSON response".

(** A platform for these examples.  [JSON.parse] is tabulated on the texts
    above and throws on any other text, as it does on [invalid_text].  The
    only string an example converts to a number is [high], which is not
    numeric and converts to NaN; no example prints a number.  The two
    conversions are constant. *)
Definition parse_table : list (jsstring * value) :=
  [ (fractional_text, fractional_value);
    (not_array_text, not_array_value);
    (empty_object_text, empty_object_value);
    (five_text, five_value);
    (high_text, high_value) ].

Definition platform : Platform :=
  {| StringToNumber := fun _ => NaN;
     NumberToString := fun _ => lit "NaN";
     JSON_parse := own_property parse_table |}.

(** The key of the environment in the tests. *)
Definition test_key : jsstring := lit "test-api-key".

(** A sanitized suggestion that took every default but its clarity. *)
Definition sanitized_default (n : nat) (c : Z) : RefinedPrompt :=
  {| id := JStr (of_nat n);
     refined := JStr (lit "Test prompt");
     clarity := of_Z c;
     explanation := JStr (lit "General improvement suggestion.") |}.

(** The responses of the endpoint to the prompts [x] and [y]. *)
Definition suggestion_x : RefinedPrompt :=
  {| id := JStr (lit "1"); refined := JStr (lit "refined x");
     clarity := of_Z 8; explanation := JStr (lit "about x") |}.
Definition suggestion_y : RefinedPrompt :=
  {| id := JStr (lit "1"); refined := JStr (lit "refined y");
     clarity := of_Z 7; explanation := JStr (lit "about y") |}.

(** The shell after its mount effect on an empty session storage, with
    [input] typed in the form. *)
Definition setup_with (input : jsstring) : KeyManager.System :=
  {| KeyManager.form :=
       {| KeyManager.apiKey := input; KeyManager.showKey := false; KeyManager.error := [] |};
     KeyManager.app := KeyManager.useEffect_mount (KeyManager.mount ∅);
     KeyManager.callbacks := 0 |}.

End Examples.

(** ** Vocabulary of the further properties *)

Module Behaviour.
Import JSNumber JS Route Contract.

Section Behaviour.
Context `{Platform}.

(** The ways the upstream call fails: [fetch] rejects, the status is not a
    success, the body is not JSON, or the body carries no message content
    (reading it throws, or it is falsy). *)
Definition upstream_fails (upstream : FetchRequest -> FetchResult)
    (rq : FetchRequest) : Prop :=
  upstream rq = FetchRejected \/
  (exists st json, upstream rq = FetchResponse false st json) \/
  (exists st, upstream rq = FetchResponse true st None) \/
  (exists st reply,
     upstream rq = FetchResponse true st (Some reply) /\
     (message_content reply = None \/
      exists c, message_content reply = Some c /\ ToBoolean c = false)).

(** The parsed reply has the wrong shape for the sanitizer: it is [null],
    or its [suggestions] is truthy and not an array, or one of the first
    three entries of the array is [null]. *)
Definition wrong_shape (parsed : value) : Prop :=
  parsed = JNull \/
  (exists s, get parsed (lit "suggestions") = Some s /\ ToBoolean s = true /\
             forall arr, s <> JArr arr) \/
  (exists arr, get parsed (lit "suggestions") = Some (JArr arr) /\
               In JNull (firstn 3 arr)).

End Behaviour.

(** The three fixed error responses of the endpoint. *)
Definition failed : Response :=
  error_response 500 (lit "Failed to refine prompt").
Definition invalid_prompt : Response :=
  error_response 400 (lit "Invalid prompt provided").
Definition key_not_provided : Response :=
  error_response 400 (lit "OpenAI API key not provided").

(** The three text fields of a suggestion are truthy. *)
Definition fields_present (s : RefinedPrompt) : Prop :=
  ToBoolean (id s) = true /\
  ToBoolean (refined s) = true /\
  ToBoolean (explanation s) = true.

(** The calls a sequence of events posts: one for each dispatch of a
    prompt that is not blank, in order. *)
Fixpoint posts_of (apiKey : jsstring) (events : list Pipeline.Event)
  : list (jsstring * jsstring) :=
  match events with
  | [] => []
  | Pipeline.Dispatch prompt :: rest =>
      if nonempty (trim prompt)
      then (prompt, apiKey) :: posts_of apiKey rest
      else posts_of apiKey rest
  | _ :: rest => posts_of apiKey rest
  end.

(** The body of [axios.post('/api/refine', { prompt, apiKey })] for a
    posted call, as [request.json()] reads it on the server. *)
Definition refine_request_body (call : jsstring * jsstring) : value :=
  JObj [ (lit "prompt", JStr (fst call)); (lit "apiKey", JStr (snd call)) ].

(** Every settled call was posted. *)
Definition settled_bounded (st : Pipeline.State) : Prop :=
  forall call, call ∈ Pipeline.settled st ->
               (call < length (Pipeline.posted st))%nat.

End Behaviour.

(** ** Further requests and replies *)

Module MoreExamples.
Import JSNumber JS Route Examples.

(** [{ prompt: '' }] *)
Definition empty_prompt_request : value :=
  JObj [ (lit "prompt", JStr []) ].

(** The upstream answer of the test [should handle OpenAI API errors]:
    [{ ok: false, status: 401 }]. *)
Definition unauthorized : FetchRequest -> FetchResult :=
  fun _ => FetchResponse false 401 None.

(** The JSON text
    [{"suggestions":[{"clarity":15},{"clarity":-5},{"clarity":0}]}] and its
    value: the first three entries of [five_entries]. *)
Definition three_text : jsstring :=
  lit "{" ++ quoted "suggestions" ++ lit ":[{" ++ quoted "clarity" ++ lit ":15},{"
  ++ quoted "clarity" ++ lit ":-5},{" ++ quoted "clarity" ++ lit ":0}]}".
Definition three_entries : list value := firstn 3 five_entries.
Definition three_value : value := JObj [ (lit "suggestions", JArr three_entries) ].

(** The JSON text [{"suggestions":[{"clarity":7},{"clarity":"high"}]}] and
    its value: a well-formed entry followed by one whose clarity is not a
    number. *)
Definition mixed_text : jsstring :=
  lit "{" ++ quoted "suggestions" ++ lit ":[{" ++ quoted "clarity" ++ lit ":7},{"
  ++ quoted "clarity" ++ lit ":" ++ quoted "high" ++ lit "}]}".
Definition mixed_entries : list value :=
  [ JObj [ (lit "clarity", JNum (of_Z 7)) ];
    JObj [ (lit "clarity", JStr (lit "high")) ] ].
Definition mixed_value : value := JObj [ (lit "suggestions", JArr mixed_entries) ].

(** The platform of the examples with [three_text] and [mixed_text] added
    to the table of [JSON.parse]. *)
Definition platform3 : Platform :=
  {| StringToNumber := fun _ => NaN;
     NumberToString := fun _ => lit "NaN";
     JSON_parse :=
       own_property ((three_text, three_value) :: (mixed_text, mixed_value) :: parse_table) |}.

(** The suggestions the handler returns for [mixed_text]. *)
Definition mixed_suggestions : list RefinedPrompt :=
  [ sanitized_default 1 7;
    {| id := JStr (lit "2"); refined := JStr (lit "Test prompt");
       clarity := NaN;
       explanation := JStr (lit "General improvement suggestion.") |} ].

(** The call of the handler for the test prompt and the test key. *)
Definition test_call : FetchRequest :=
  chat_request (lit "Bearer test-api-key") (lit "Test prompt").

End MoreExamples.

(** ** Properties of the refine endpoint *)

Module RouteProperties.
Import JSNumber JS Route Contract.

Section Clamp.
Context `{Platform}.

Lemma Qle_bool_false (p q : Q) : Qle_bool p q = false -> (q < p)%Q.
Proof.
  intros Hf. apply Qnot_le_lt. intros Hle.
  apply Qle_bool_iff in Hle. congruence.
Qed.

(** The clamp of a number: the floor, the ceiling, or the number itself
    when it lies strictly between them. *)
Lemma clamp_cases (n : number) :
  let r := max (of_Z 1) (min (of_Z 10) n) in
  (n = NaN /\ r = NaN) \/
  r = of_Z 1 \/ r = of_Z 10 \/
  (exists q, n = Fin q /\ r = Fin q /\ (1 < q)%Q /\ (q < 10)%Q).
Proof.
  destruct n as [| |q|]; cbn.
  - left. split; reflexivity.
  - right. left. reflexivity.
  - right.
    destruct (Qle_bool (inject_Z 10) q) eqn:Hhi.
    + right. left. reflexivity.
    + cbn. destruct (Qle_bool q (inject_Z 1)) eqn:Hlo.
      * left. reflexivity.
      * right. right. exists q.
        repeat split; [apply Qle_bool_false, Hlo | apply Qle_bool_false, Hhi].
  - right. right. left. reflexivity.
Qed.

Lemma truthy_positive (q : Q) : (0 < q)%Q -> truthy (Fin q) = true.
Proof.
  intros Hq. cbn. destruct (Qeq_bool q 0) eqn:He; [|reflexivity].
  apply Qeq_bool_iff in He. rewrite He in Hq. exfalso. exact (Qlt_irrefl _ Hq).
Qed.

(** Re-normalising a value strictly inside the range returns it. *)
Lemma sanitize_clarity_inside (q : Q) :
  (1 < q)%Q -> (q < 10)%Q -> sanitize_clarity (JNum (Fin q)) = Some (Fin q).
Proof.
  intros Hlo Hhi. unfold sanitize_clarity, or_else.
  cbn [ToBoolean]. rewrite truthy_positive.
  2:{ apply Qlt_trans with 1%Q; [reflexivity | exact Hlo]. }
  cbn.
  destruct (Qle_bool (inject_Z 10) q) eqn:H10.
  { apply Qle_bool_iff in H10. exfalso. exact (Qlt_not_le _ _ Hhi H10). }
  cbn. destruct (Qle_bool q (inject_Z 1)) eqn:H1.
  { apply Qle_bool_iff in H1. exfalso. exact (Qlt_not_le _ _ Hlo H1). }
  reflexivity.
Qed.

(** What [sanitize_clarity] returns is NaN, or lies in [1, 10] and is a
    fixed point of the normalisation. *)
Lemma sanitize_clarity_result (c : value) (n : number) :
  sanitize_clarity c = Some n ->
  n = NaN \/ (in_range 1 10 n /\ sanitize_clarity (JNum n) = Some n).
Proof.
  unfold sanitize_clarity at 1.
  destruct (ToNumber _) as [m|]; [|discriminate].
  intros Heq.
  assert (Hn : n = max (of_Z 1) (min (of_Z 10) m)) by congruence.
  clear Heq. subst n.
  destruct (clamp_cases m) as [[_ ->] | [-> | [-> | (q & -> & -> & Hlo & Hhi)]]].
  - left. reflexivity.
  - right. split; [cbn; split; discriminate | reflexivity].
  - right. split; [cbn; split; discriminate | reflexivity].
  - right. split.
    + cbn. split; apply Qlt_le_weak; assumption.
    + apply sanitize_clarity_inside; assumption.
Qed.

(** The conversion of an absent or numeric clarity never throws and never
    yields NaN. *)
Lemma sanitize_clarity_numeric (c : value) :
  numeric_or_absent c ->
  exists n, sanitize_clarity c = Some n /\ in_range 1 10 n /\
            (not_fractional c -> is_integer n = true).
Proof.
  destruct c as [| |b|n| | |]; cbn [numeric_or_absent]; try contradiction; intros _.
  - exists (of_Z 5). repeat split; cbn; discriminate.
  - exists (of_Z 5). repeat split; cbn; discriminate.
  - destruct b.
    + exists (of_Z 1). repeat split; cbn; discriminate.
    + exists (of_Z 5). repeat split; cbn; discriminate.
  - unfold sanitize_clarity, or_else. cbn [ToBoolean].
    destruct (truthy n) eqn:Ht.
    + cbn [ToNumber].
      destruct (clamp_cases n) as [[-> _] | [-> | [-> | (q & -> & -> & Hlo & Hhi)]]].
      * discriminate.
      * exists (of_Z 1). repeat split; cbn; discriminate.
      * exists (of_Z 10). repeat split; cbn; discriminate.
      * exists (Fin q). split; [reflexivity|]. split.
        -- cbn. split; apply Qlt_le_weak; assumption.
        -- intros Hint. exact Hint.
    + exists (of_Z 5). repeat split; cbn; discriminate.
Qed.

End Clamp.

Section Handler.
Context `{Platform}.

Lemma jsstring_eqb_refl (a : jsstring) : jsstring_eqb a a = true.
Proof. unfold jsstring_eqb. apply bool_decide_eq_true. reflexivity. Qed.

Lemma bind_ret {A B} (a : A) (k : A -> Handler B) : bind (ret a) k = k a.
Proof. unfold bind, ret. destruct (k a). reflexivity. Qed.

Lemma bind_lift_Some {A B} (a : A) (k : A -> Handler B) : bind (lift (Some a)) k = k a.
Proof. apply bind_ret. Qed.

Lemma bind_lift_None {A B} (k : A -> Handler B) : bind (lift None) k = ([], Throw).
Proof. reflexivity. Qed.

Lemma bind_fetch {B} upstream rq ok st json (k : bool * Z * option value -> Handler B) :
  upstream rq = FetchResponse ok st json ->
  bind (fetch upstream rq) k = (rq :: fst (k (ok, st, json)), snd (k (ok, st, json))).
Proof.
  intros Hup. unfold bind, fetch. rewrite Hup.
  destruct (k (ok, st, json)). reflexivity.
Qed.

(** A value that has one property read without a [TypeError] has them all. *)
Lemma get_defined (v : value) (a b : jsstring) (x : value) :
  get v a = Some x -> exists y, get v b = Some y.
Proof. destruct v; cbn; intros Hx; try discriminate; eauto. Qed.

Lemma typeof_string (v : value) :
  jsstring_eqb (typeof v) (lit "string") = true -> exists s, v = JStr s.
Proof. destruct v; cbn [typeof]; intros Ht; try (vm_compute in Ht; discriminate). eauto. Qed.

(** The handler up to the key check, for a prompt that is a non-empty
    string. *)
Lemma POST_body_prompt body env upstream p apiKey :
  get body (lit "prompt") = Some (JStr p) ->
  nonempty p = true ->
  get body (lit "apiKey") = Some apiKey ->
  POST_body (Some body) env upstream =
    let openaiApiKey := or_else apiKey (env_value env) in
    if negb (ToBoolean openaiApiKey)
    then return_ (NextResponse_json (ErrorData (lit "OpenAI API key not provided")) (Some 400%Z))
    else
      bind (lift (ToString openaiApiKey)) (fun key =>
      bind (fetch upstream (chat_request (lit "Bearer " ++ key) p)) (fun response =>
        let '(ok, _, json) := response in
        if negb ok then throw
        else
          bind (lift json) (fun data =>
          bind (lift (message_content data)) (fun content =>
            if negb (ToBoolean content) then throw
            else
              bind (lift (sanitize_suggestions p (parse_content p content)))
                (fun suggestions =>
                   ret (NextResponse_json (SuggestionsData suggestions) None)))))).
Proof.
  intros Hp Hne Hk. unfold POST_body.
  rewrite bind_lift_Some, Hp, bind_lift_Some, Hk, bind_lift_Some.
  cbn [ToBoolean typeof]. rewrite Hne, jsstring_eqb_refl. reflexivity.
Qed.

(** A valid request with a resolvable credential makes exactly one call,
    and an upstream success is answered from the parsed content. *)
Lemma POST_parsed body env upstream p key content :
  valid_request body env p key ->
  replies upstream (chat_request (lit "Bearer " ++ key) p) content ->
  POST (Some body) env upstream =
    ([chat_request (lit "Bearer " ++ key) p],
     match sanitize_suggestions p (parse_content p content) with
     | Some suggestions => ok_response suggestions
     | None => error_response 500 (lit "Failed to refine prompt")
     end).
Proof.
  intros (Hp & Hne & apiKey & Hk & Htrue & Hkey) (st & reply & Hup & Hcontent & Hct).
  unfold POST. rewrite (POST_body_prompt _ _ _ _ _ Hp Hne Hk).
  cbv zeta. rewrite Htrue, Hkey. cbn [negb]. rewrite bind_lift_Some.
  rewrite (bind_fetch _ _ _ _ _ _ Hup). cbn [negb].
  rewrite bind_lift_Some, Hcontent, bind_lift_Some, Hct. cbn [negb].
  destruct (sanitize_suggestions p (parse_content p content)) as [sugs|]; reflexivity.
Qed.

(** The calls of a valid request with a resolvable credential, whatever the
    upstream API answers. *)
Lemma POST_calls body env upstream p key :
  valid_request body env p key ->
  fst (POST (Some body) env upstream) = [chat_request (lit "Bearer " ++ key) p].
Proof.
  intros (Hp & Hne & apiKey & Hk & Htrue & Hkey).
  unfold POST. rewrite (POST_body_prompt _ _ _ _ _ Hp Hne Hk).
  cbv zeta. rewrite Htrue, Hkey. cbn [negb]. rewrite bind_lift_Some.
  unfold bind at 1, fetch.
  destruct (upstream _) as [|ok st json]; [reflexivity|].
  match goal with |- context [let '(_, _) := ?k in _] => destruct k as [calls c] eqn:Hk' end.
  assert (calls = []) as ->.
  { destruct ok; cbn [negb] in Hk'; [|unfold throw in Hk'; congruence].
    destruct json as [d|]; [|cbn in Hk'; congruence].
    rewrite bind_lift_Some in Hk'.
    destruct (message_content d) as [ct|]; [|cbn in Hk'; congruence].
    rewrite bind_lift_Some in Hk'.
    destruct (ToBoolean ct); cbn [negb] in Hk'; [|unfold throw in Hk'; congruence].
    destruct (sanitize_suggestions p (parse_content p ct)); cbn in Hk'; congruence. }
  destruct c; reflexivity.
Qed.

(** No credential: the handler answers 400 without calling upstream. *)
Lemma POST_no_key body env upstream p apiKey :
  get body (lit "prompt") = Some (JStr p) ->
  nonempty p = true ->
  get body (lit "apiKey") = Some apiKey ->
  ToBoolean apiKey = false ->
  ToBoolean (env_value env) = false ->
  POST (Some body) env upstream =
    ([], error_response 400 (lit "OpenAI API key not provided")).
Proof.
  intros Hp Hne Hk Hfalse Henv.
  unfold POST. rewrite (POST_body_prompt _ _ _ _ _ Hp Hne Hk).
  cbv zeta. unfold or_else. rewrite Hfalse, Henv. reflexivity.
Qed.

Lemma map_indexed_spec {A B} (f : nat -> A -> option B) (l : list A) :
  forall k,
  Forall (fun a => forall i, is_Some (f i a)) l ->
  exists bs, map_indexed f k l = Some bs /\
             length bs = length l /\
             forall i b, bs !! i = Some b ->
                         exists a, l !! i = Some a /\ f (k + i)%nat a = Some b.
Proof.
  induction l as [|a l IH]; intros k Hall.
  - exists []. repeat split. intros i b Hb. rewrite lookup_nil in Hb. discriminate.
  - inversion Hall as [|? ? Ha Hl]; subst.
    destruct (Ha k) as [b Hb].
    destruct (IH (S k) Hl) as (bs & Hbs & Hlen & Hnth).
    exists (b :: bs). cbn [map_indexed]. rewrite Hb, Hbs.
    repeat split; [cbn; congruence|].
    intros [|i] b' Hb'; cbn in Hb'.
    + exists a. split; [reflexivity|]. rewrite Nat.add_0_r. congruence.
    + destruct (Hnth i b' Hb') as (a' & Ha' & Hf).
      exists a'. split; [exact Ha'|]. rewrite <- Nat.add_succ_comm. exact Hf.
Qed.

(** A well-formed entry is sanitized without a [TypeError]. *)
Lemma sanitize_entry p index e :
  suggestion_entry e -> is_Some (sanitize p index e).
Proof.
  destruct e as [| | | | | |props]; cbn [suggestion_entry]; try contradiction.
  intros Hc. unfold sanitize. cbn [get].
  destruct (sanitize_clarity_numeric (default JUndefined (own_property props (lit "clarity"))))
    as (n & Hn & _).
  { destruct (own_property props (lit "clarity")) as [[]|]; cbn; auto. }
  rewrite Hn. eexists. reflexivity.
Qed.

Lemma sanitize_clarity_of p index e s :
  sanitize p index e = Some s ->
  exists c, get e (lit "clarity") = Some c /\ sanitize_clarity c = Some (clarity s).
Proof.
  unfold sanitize.
  destruct (get e (lit "id")); [|discriminate].
  destruct (get e (lit "refined")); [|discriminate].
  destruct (get e (lit "clarity")) as [c|]; [|discriminate].
  destruct (sanitize_clarity c) as [n|] eqn:Hn; [|discriminate].
  destruct (get e (lit "explanation")); [|discriminate].
  intros [= <-]. exists c. split; [reflexivity|exact Hn].
Qed.

(** *** Request validation *)

(** C7, as the handler has it.  A request whose body is read as a JSON
    value other than [null] (so that it destructures) and whose [prompt] is
    absent, [null] or not a string is answered with status 400 and the
    message [Invalid prompt provided], and no call is made to the upstream
    API. *)
Theorem invalid_prompt_rejected body prompt env upstream :
  get body (lit "prompt") = Some prompt ->
  (prompt = JUndefined \/ prompt = JNull \/
   jsstring_eqb (typeof prompt) (lit "string") = false) ->
  POST (Some body) env upstream =
    ([], error_response 400 (lit "Invalid prompt provided")).
Proof.
  intros Hp Hbad. unfold POST, POST_body.
  destruct (get_defined _ _ (lit "apiKey") _ Hp) as [apiKey Hk].
  rewrite bind_lift_Some, Hp, bind_lift_Some, Hk, bind_lift_Some.
  assert (Hcond : negb (ToBoolean prompt)
                  || negb (jsstring_eqb (typeof prompt) (lit "string")) = true).
  { destruct Hbad as [-> | [-> | Ht]]; [reflexivity | reflexivity |].
    rewrite Ht. apply orb_true_r. }
  rewrite Hcond. reflexivity.
Qed.

(** *** Credential resolution *)

(** C8. A non-empty credential in the request is the one sent in the
    [Authorization: Bearer] header of the one upstream call, whatever the
    server default is; the server default is sent in that header when the
    request credential is absent or empty (or otherwise falsy). *)
Theorem client_credential_precedence body p upstream :
  get body (lit "prompt") = Some (JStr p) ->
  nonempty p = true ->
  (forall k env,
     get body (lit "apiKey") = Some (JStr k) ->
     nonempty k = true ->
     fst (POST (Some body) env upstream) = [chat_request (lit "Bearer " ++ k) p] /\
     List.map Authorization (fst (POST (Some body) env upstream))
       = [lit "Bearer " ++ k]) /\
  (forall apiKey d,
     get body (lit "apiKey") = Some apiKey ->
     ToBoolean apiKey = false ->
     nonempty d = true ->
     fst (POST (Some body) (Some d) upstream) = [chat_request (lit "Bearer " ++ d) p] /\
     List.map Authorization (fst (POST (Some body) (Some d) upstream))
       = [lit "Bearer " ++ d]).
Proof.
  intros Hp Hne. split.
  - intros k env Hk Hkne.
    assert (Hcalls : fst (POST (Some body) env upstream)
                     = [chat_request (lit "Bearer " ++ k) p]).
    { apply POST_calls.
      split; [exact Hp|]. split; [exact Hne|].
      exists (JStr k). unfold or_else. cbn [ToBoolean]. rewrite Hkne. auto. }
    split; [exact Hcalls|]. rewrite Hcalls. reflexivity.
  - intros apiKey d Hk Hfalse Hd.
    assert (Hcalls : fst (POST (Some body) (Some d) upstream)
                     = [chat_request (lit "Bearer " ++ d) p]).
    { apply POST_calls.
      split; [exact Hp|]. split; [exact Hne|].
      exists apiKey. unfold or_else. rewrite Hfalse. cbn. auto. }
    split; [exact Hcalls|]. rewrite Hcalls. reflexivity.
Qed.

(** *** Fallback and normalisation *)

(** C5, as the handler has it.  When the content of the upstream reply is
    truthy (not the empty string) and [JSON.parse] throws on it, the
    response has status 200 and exactly one suggestion: id [1], a refined
    text quoting the trimmed prompt, clarity 6 and a fixed explanation. *)
Theorem unparseable_reply_fallback body env upstream p key content :
  valid_request body env p key ->
  replies upstream (chat_request (lit "Bearer " ++ key) p) content ->
  parse_throws content ->
  POST (Some body) env upstream =
    ([chat_request (lit "Bearer " ++ key) p],
     ok_response
       [ {| id := JStr (lit "1");
            refined :=
              JStr (lit "Be more specific about what you want to know: " ++ dquote
                    ++ trim p ++ dquote
                    ++ lit " - what particular aspect interests you most?");
            clarity := of_Z 6;
            explanation :=
              JStr (lit "Adding specificity helps get more targeted and useful responses.") |} ]).
Proof.
  intros Hreq Hrep Hthrows.
  rewrite (POST_parsed _ _ _ _ _ _ Hreq Hrep).
  assert (Hparse : parse_content p content = fallback_response p).
  { unfold parse_content. unfold parse_throws in Hthrows.
    destruct (ToString content) as [text|]; [|reflexivity].
    rewrite Hthrows. reflexivity. }
  rewrite Hparse. reflexivity.
Qed.

Lemma map_indexed_lookup {A B} (f : nat -> A -> option B) (l : list A) :
  forall k bs, map_indexed f k l = Some bs ->
  forall i b, bs !! i = Some b ->
              exists a, l !! i = Some a /\ f (k + i)%nat a = Some b.
Proof.
  induction l as [|a l IH]; intros k bs; cbn [map_indexed].
  - intros [= <-] i b Hb. rewrite lookup_nil in Hb. discriminate.
  - destruct (f k a) as [b0|] eqn:Hb0; [|discriminate].
    destruct (map_indexed f (S k) l) as [bs'|] eqn:Hbs; [|discriminate].
    intros [= <-] [|i] b Hb; cbn in Hb.
    + exists a. split; [reflexivity|]. rewrite Nat.add_0_r. congruence.
    + destruct (IH _ _ Hbs i b Hb) as (a' & Ha' & Hf).
      exists a'. split; [exact Ha'|]. rewrite <- Nat.add_succ_comm. exact Hf.
Qed.

(** The suggestions of a success, entry by entry: the [i]-th suggestion is
    the sanitized [i]-th entry of the array read in the parsed content (the
    empty array when [suggestions] is falsy). *)
Lemma POST_success_entries body env upstream p key content calls sugs st :
  valid_request body env p key ->
  replies upstream (chat_request (lit "Bearer " ++ key) p) content ->
  POST (Some body) env upstream
    = (calls, {| data := SuggestionsData sugs; status := st |}) ->
  exists v arr,
    get (parse_content p content) (lit "suggestions") = Some v /\
    or_else v (JArr []) = JArr arr /\
    forall i s, sugs !! i = Some s ->
                exists e, arr !! i = Some e /\ sanitize p i e = Some s.
Proof.
  intros Hreq Hrep HPOST.
  rewrite (POST_parsed _ _ _ _ _ _ Hreq Hrep) in HPOST.
  destruct (sanitize_suggestions p (parse_content p content)) as [l|] eqn:Hs;
    [|discriminate].
  injection HPOST as _ <-.
  unfold sanitize_suggestions in Hs.
  destruct (get (parse_content p content) (lit "suggestions")) as [v|]; [|discriminate].
  destruct (or_else v (JArr [])) as [| | | | |arr|] eqn:Hv; try discriminate.
  exists v, arr. split; [reflexivity|]. split; [exact Hv|].
  intros i s Hi. destruct (map_indexed_lookup _ _ _ _ Hs i s Hi) as (e & He & Hf).
  exists e. split; [|exact Hf].
  apply lookup_take_Some in He. tauto.
Qed.

(** The response to an array of well-formed entries, whether the array
    was parsed from the reply or is the one of the fallback. *)
Lemma POST_suggestions_array body env upstream p key content arr :
  valid_request body env p key ->
  replies upstream (chat_request (lit "Bearer " ++ key) p) content ->
  get (parse_content p content) (lit "suggestions") = Some (JArr arr) ->
  Forall suggestion_entry arr ->
  exists sugs,
    POST (Some body) env upstream =
      ([chat_request (lit "Bearer " ++ key) p], ok_response sugs) /\
    length sugs = Nat.min (length arr) 3 /\
    forall i s, sugs !! i = Some s ->
                exists e, arr !! i = Some e /\ sanitize p i e = Some s.
Proof.
  intros Hreq Hrep Hsug Hall.
  rewrite (POST_parsed _ _ _ _ _ _ Hreq Hrep).
  unfold sanitize_suggestions. rewrite Hsug. unfold or_else. cbn [ToBoolean].
  destruct (map_indexed_spec (sanitize p) (firstn 3 arr) 0) as (sugs & Hmap & Hlen & Hnth).
  { apply Forall_take. eapply Forall_impl; [exact Hall|].
    intros e He i. apply sanitize_entry, He. }
  exists sugs. rewrite Hmap. split; [reflexivity|]. split.
  - rewrite Hlen, length_take. apply Nat.min_comm.
  - intros i s Hs. destruct (Hnth i s Hs) as (e & He & Hf).
    exists e. split; [|exact Hf].
    apply lookup_take_Some in He. tauto.
Qed.

Lemma parse_content_parsed p content parsed :
  parses_to content parsed -> parse_content p content = parsed.
Proof.
  intros (text & Htext & Hparse). unfold parse_content.
  rewrite Htext, Hparse. reflexivity.
Qed.

(** C6. When the content parses to a value whose [suggestions] is an array
    of [n] well-formed entries, the response has status 200 and
    [min n 3] suggestions, the [i]-th one being the sanitized [i]-th entry
    of the array. *)
Theorem suggestions_truncated_to_three body env upstream p key content parsed arr :
  valid_request body env p key ->
  replies upstream (chat_request (lit "Bearer " ++ key) p) content ->
  parses_to content parsed ->
  get parsed (lit "suggestions") = Some (JArr arr) ->
  Forall suggestion_entry arr ->
  exists sugs,
    POST (Some body) env upstream =
      ([chat_request (lit "Bearer " ++ key) p], ok_response sugs) /\
    length sugs = Nat.min (length arr) 3 /\
    forall i s, sugs !! i = Some s ->
                exists e, arr !! i = Some e /\ sanitize p i e = Some s.
Proof.
  intros Hreq Hrep Hparse Hsug Hall.
  apply (POST_suggestions_array _ _ _ _ _ content); try assumption.
  rewrite (parse_content_parsed _ _ _ Hparse). exact Hsug.
Qed.

(** C10, as the handler has it.  When the content parses to a value other
    than [null] whose [suggestions] property is absent or falsy (as in
    [{}]), the parsed value is used as it is, without the fallback, and the
    response has status 200 and no suggestion. *)
Theorem absent_suggestions_empty_list body env upstream p key content parsed s :
  valid_request body env p key ->
  replies upstream (chat_request (lit "Bearer " ++ key) p) content ->
  parses_to content parsed ->
  get parsed (lit "suggestions") = Some s ->
  ToBoolean s = false ->
  parse_content p content = parsed /\
  POST (Some body) env upstream =
    ([chat_request (lit "Bearer " ++ key) p], ok_response []).
Proof.
  intros Hreq Hrep (text & Htext & Hparse) Hs Hfalse.
  assert (Hpc : parse_content p content = parsed).
  { unfold parse_content. rewrite Htext, Hparse. reflexivity. }
  split; [exact Hpc|].
  rewrite (POST_parsed _ _ _ _ _ _ Hreq Hrep), Hpc.
  unfold sanitize_suggestions, or_else. rewrite Hs, Hfalse. reflexivity.
Qed.

(** C3, as the handler has it.  In a successful response the [i]-th
    suggestion comes from the [i]-th entry of the suggestions array of the
    reply (parsed, or that of the fallback), and its clarity is the
    normalisation of the clarity of that entry.  Whenever that upstream
    clarity is absent or a number (or [null] or a boolean), whatever the
    other entries are, the clarity returned is a number of [1, 10] that
    the normalisation maps to itself, and it is an integer unless the
    upstream clarity is a fractional number. *)
Theorem clarity_within_bounds body env upstream p key content calls sugs st :
  valid_request body env p key ->
  replies upstream (chat_request (lit "Bearer " ++ key) p) content ->
  POST (Some body) env upstream
    = (calls, {| data := SuggestionsData sugs; status := st |}) ->
  exists v arr,
    get (parse_content p content) (lit "suggestions") = Some v /\
    or_else v (JArr []) = JArr arr /\
    forall i s, sugs !! i = Some s ->
      exists e c,
        arr !! i = Some e /\
        get e (lit "clarity") = Some c /\
        sanitize_clarity c = Some (clarity s) /\
        (numeric_or_absent c ->
         in_range 1 10 (clarity s) /\
         sanitize_clarity (JNum (clarity s)) = Some (clarity s) /\
         (not_fractional c -> is_integer (clarity s) = true)).
Proof.
  intros Hreq Hrep HPOST.
  destruct (POST_success_entries _ _ _ _ _ _ _ _ _ Hreq Hrep HPOST)
    as (v & arr & Hv & Harr & Hnth).
  exists v, arr. split; [exact Hv|]. split; [exact Harr|].
  intros i s Hs. destruct (Hnth i s Hs) as (e & He & Hse).
  destruct (sanitize_clarity_of _ _ _ _ Hse) as (c & Hget & Hc).
  exists e, c. split; [exact He|]. split; [exact Hget|]. split; [exact Hc|].
  intros Hnum.
  destruct (sanitize_clarity_numeric c Hnum) as (n & Hn & Hrange & Hint).
  assert (clarity s = n) as Heq by congruence.
  rewrite Heq. split; [exact Hrange|]. split; [|exact Hint].
  destruct (sanitize_clarity_result _ _ Hn) as [-> | [_ Hidem]];
    [contradiction | exact Hidem].
Qed.

(** C4. The clamping law of the clarity normalisation: 15 gives 10, -5
    gives 1, 0 gives the default 5, 7 is unchanged, and a missing clarity
    gives 5. *)
Theorem clarity_clamping_law :
  sanitize_clarity (JNum (of_Z 15)) = Some (of_Z 10) /\
  sanitize_clarity (JNum (of_Z (-5))) = Some (of_Z 1) /\
  sanitize_clarity (JNum (of_Z 0)) = Some (of_Z 5) /\
  sanitize_clarity (JNum (of_Z 7)) = Some (of_Z 7) /\
  sanitize_clarity JUndefined = Some (of_Z 5).
Proof. repeat split; reflexivity. Qed.

(** C1, on the code.  The request of the test [should handle missing OpenAI
    API key], with no key in the request and none in the environment, is
    answered with status 400 and the message [OpenAI API key not provided],
    where the test and the specification expect status 500; no call is made
    to the upstream API. *)
Theorem missing_key_answered_400 upstream :
  POST (Some Examples.test_request) None upstream =
    ([], error_response 400 (lit "OpenAI API key not provided")).
Proof.
  apply (POST_no_key _ _ _ (lit "Test prompt") JUndefined); reflexivity.
Qed.

End Handler.

(** *** The properties on the requests of the tests *)

Import Examples.

Lemma test_request_valid :
  @valid_request platform test_request (Some test_key) (lit "Test prompt") test_key.
Proof.
  split; [reflexivity|]. split; [reflexivity|].
  exists JUndefined. repeat split; reflexivity.
Qed.

Lemma reply_with_replies (text : jsstring) rq :
  nonempty text = true -> replies (reply_with (JStr text)) rq (JStr text).
Proof.
  intros Hne. exists 200%Z. eexists. split; [reflexivity|]. split; [reflexivity|exact Hne].
Qed.

Lemma invalid_prompt_rejected_witness :
  @POST platform (Some (JObj [])) None (reply_with JNull)
    = ([], error_response 400 (lit "Invalid prompt provided")).
Proof.
  apply (@invalid_prompt_rejected platform (JObj []) JUndefined).
  - reflexivity.
  - left. reflexivity.
Defined.

Lemma client_credential_precedence_witness :
  List.map Authorization
    (fst (@POST platform (Some keyed_request) (Some test_key) (reply_with JNull)))
    = [lit "Bearer sk-client"] /\
  List.map Authorization
    (fst (@POST platform (Some test_request) (Some test_key) (reply_with JNull)))
    = [lit "Bearer test-api-key"].
Proof.
  split.
  - apply (proj1 (@client_credential_precedence platform keyed_request
                    (lit "Test prompt") (reply_with JNull) eq_refl eq_refl)
             (lit "sk-client") (Some test_key)); reflexivity.
  - apply (proj2 (@client_credential_precedence platform test_request
                    (lit "Test prompt") (reply_with JNull) eq_refl eq_refl)
             JUndefined test_key); reflexivity.
Defined.

Lemma unparseable_reply_fallback_witness :
  exists sugs,
    snd (@POST platform (Some test_request) (Some test_key)
           (reply_with (JStr invalid_text))) = ok_response sugs /\
    length sugs = 1%nat.
Proof.
  eexists. split.
  - rewrite (@unparseable_reply_fallback platform test_request (Some test_key)
               (reply_with (JStr invalid_text)) (lit "Test prompt") test_key
               (JStr invalid_text)).
    + reflexivity.
    + exact test_request_valid.
    + apply reply_with_replies. reflexivity.
    + reflexivity.
  - reflexivity.
Defined.

Lemma suggestions_truncated_to_three_witness :
  exists sugs,
    snd (@POST platform (Some test_request) (Some test_key)
           (reply_with (JStr five_text))) = ok_response sugs /\
    length sugs = 3%nat.
Proof.
  destruct (@suggestions_truncated_to_three platform test_request (Some test_key)
              (reply_with (JStr five_text)) (lit "Test prompt") test_key
              (JStr five_text) five_value five_entries)
    as (sugs & HPOST & Hlen & _).
  - exact test_request_valid.
  - apply reply_with_replies. reflexivity.
  - exists five_text. split; reflexivity.
  - reflexivity.
  - repeat constructor.
  - exists sugs. rewrite HPOST. split; [reflexivity | exact Hlen].
Defined.

Lemma absent_suggestions_empty_list_witness :
  @POST platform (Some test_request) (Some test_key) (reply_with (JStr empty_object_text))
    = ([@chat_request (lit "Bearer test-api-key") (lit "Test prompt")], ok_response []).
Proof.
  apply (@absent_suggestions_empty_list platform test_request (Some test_key)
           (reply_with (JStr empty_object_text)) (lit "Test prompt") test_key
           (JStr empty_object_text) empty_object_value JUndefined).
  - exact test_request_valid.
  - apply reply_with_replies. reflexivity.
  - exists empty_object_text. split; reflexivity.
  - reflexivity.
  - reflexivity.
Defined.

Lemma mixed_response :
  @POST MoreExamples.platform3 (Some test_request) (Some test_key)
    (reply_with (JStr MoreExamples.mixed_text))
    = ([MoreExamples.test_call],
       {| data := SuggestionsData MoreExamples.mixed_suggestions; status := 200 |}).
Proof. vm_compute. reflexivity. Qed.

Lemma clarity_within_bounds_witness :
  in_range 1 10 (of_Z 7) /\
  @sanitize_clarity MoreExamples.platform3 (JNum (of_Z 7)) = Some (of_Z 7) /\
  is_integer (of_Z 7) = true.
Proof.
  destruct (@clarity_within_bounds MoreExamples.platform3 test_request (Some test_key)
              (reply_with (JStr MoreExamples.mixed_text)) (lit "Test prompt") test_key
              (JStr MoreExamples.mixed_text) [MoreExamples.test_call]
              MoreExamples.mixed_suggestions 200%Z)
    as (v & arr & Hv & Harr & Hall).
  - split; [reflexivity|]. split; [reflexivity|].
    exists JUndefined. repeat split; reflexivity.
  - apply reply_with_replies. reflexivity.
  - exact mixed_response.
  - vm_compute in Hv. injection Hv as <-.
    vm_compute in Harr. injection Harr as <-.
    destruct (Hall 0%nat (sanitized_default 1 7) eq_refl) as (e & c & He & Hc & _ & Hbound).
    vm_compute in He. injection He as <-.
    vm_compute in Hc. injection Hc as <-.
    destruct (Hbound I) as (Hrange & Hidem & Hint).
    split; [exact Hrange|]. split; [exact Hidem | exact (Hint eq_refl)].
Defined.

(** C5 as stated fails: the empty content is not parseable JSON, and the
    handler answers it with the error 500, not with the fallback. *)
Lemma empty_content_counterexample :
  @parse_throws platform (JStr []) /\
  @POST platform (Some test_request) (Some test_key) (reply_with (JStr []))
    = ([@chat_request (lit "Bearer test-api-key") (lit "Test prompt")],
       error_response 500 (lit "Failed to refine prompt")).
Proof. split; vm_compute; reflexivity. Qed.

(** C7 as stated fails: in the body [null] the prompt is absent, and the
    handler answers it with the error 500, not with 400; so it does a
    body that is not JSON. *)
Lemma null_body_counterexample :
  @POST platform (Some JNull) (Some test_key) (reply_with JNull)
    = ([], error_response 500 (lit "Failed to refine prompt")) /\
  @POST platform None (Some test_key) (reply_with JNull)
    = ([], error_response 500 (lit "Failed to refine prompt")).
Proof. split; vm_compute; reflexivity. Qed.

(** C10 as stated fails: the content [{"suggestions":{}}] is valid JSON
    without a suggestions array, and the response is the error 500. *)
Lemma not_array_counterexample :
  @JSON_parse platform not_array_text = Some not_array_value /\
  @POST platform (Some test_request) (Some test_key) (reply_with (JStr not_array_text))
    = ([@chat_request (lit "Bearer test-api-key") (lit "Test prompt")],
       error_response 500 (lit "Failed to refine prompt")).
Proof. split; vm_compute; reflexivity. Qed.

(** C3 as stated fails.  The content [{"suggestions":[{"clarity":7.5}]}]
    yields a successful response whose only suggestion has clarity 7.5,
    which is not an integer; and the content
    [{"suggestions":[{"clarity":"high"}]}] yields one whose clarity is NaN,
    which the normalisation then maps to 5. *)
Lemma fractional_clarity_counterexample :
  (@JSON_parse platform fractional_text = Some fractional_value /\
   snd (@POST platform (Some test_request) (Some test_key) (reply_with (JStr fractional_text)))
     = ok_response
         [ {| id := JStr (lit "1");
              refined := JStr (lit "Test prompt");
              clarity := Fin (15 # 2);
              explanation := JStr (lit "General improvement suggestion.") |} ] /\
   is_integer (Fin (15 # 2)) = false) /\
  (@JSON_parse platform high_text = Some high_value /\
   snd (@POST platform (Some test_request) (Some test_key) (reply_with (JStr high_text)))
     = ok_response
         [ {| id := JStr (lit "1");
              refined := JStr (lit "Test prompt");
              clarity := NaN;
              explanation := JStr (lit "General improvement suggestion.") |} ] /\
   ~ in_range 1 10 NaN /\
   @sanitize_clarity platform (JNum NaN) = Some (of_Z 5)).
Proof.
  split; repeat split; try (vm_compute; reflexivity).
  intros [].
Qed.

End RouteProperties.

(** ** Properties of the key/session manager *)

Module KeyManagerProperties.
Import KeyManager.

Lemma trimStart_nonempty (l : jsstring) (c : N) :
  In c l -> is_white_space c = false -> nonempty (trimStart l) = true.
Proof.
  induction l as [|a l IH]; intros Hin Hc; [contradiction|].
  cbn [trimStart]. destruct (is_white_space a) eqn:Ha; [|reflexivity].
  destruct Hin as [-> | Hin]; [congruence|]. apply IH; assumption.
Qed.

Lemma nonempty_rev (l : jsstring) : nonempty (rev l) = nonempty l.
Proof.
  destruct l as [|a l]; [reflexivity|]. cbn [rev nonempty].
  destruct (rev l); reflexivity.
Qed.

Lemma startsWith_sk (k : jsstring) :
  startsWith k (lit "sk-") = true -> exists rest, k = 115 :: 107 :: 45 :: rest.
Proof.
  change (lit "sk-") with [115; 107; 45].
  destruct k as [|a [|b [|c rest]]]; cbn [startsWith]; try discriminate;
    try (intros Hs; repeat (apply andb_true_iff in Hs as [? Hs]); discriminate).
  intros Hs. apply andb_true_iff in Hs as [Ha Hs].
  apply andb_true_iff in Hs as [Hb Hs]. apply andb_true_iff in Hs as [Hc _].
  apply N.eqb_eq in Ha, Hb, Hc. subst. eauto.
Qed.

(** A key that starts with [sk-] is not blank. *)
Lemma startsWith_sk_not_blank (k : jsstring) :
  startsWith k (lit "sk-") = true -> nonempty (trim k) = true.
Proof.
  intros Hs. destruct (startsWith_sk k Hs) as [rest ->].
  unfold trim, trimEnd. change (trimStart (115 :: 107 :: 45 :: rest)) with (115 :: 107 :: 45 :: rest).
  rewrite nonempty_rev. apply (trimStart_nonempty _ 115); [|reflexivity].
  apply in_rev. rewrite rev_involutive. left. reflexivity.
Qed.

(** C9. With the manager Unconfigured, submitting a blank credential, or
    one that does not start with [sk-], changes nothing but the message of
    the form, which names the problem: the storage and the shell are
    untouched and the callback is not invoked.  Submitting a non-empty
    credential that starts with [sk-] invokes the callback once, writes the
    trimmed credential to the session storage under [openai-api-key] and
    leaves the manager Ready. *)
Theorem credential_submission (sys : System) :
  manager_state (app sys) = Some Unconfigured ->
  let k := apiKey (form sys) in
  (nonempty (trim k) = false ->
   forall onApiKeySet,
     submit onApiKeySet sys =
       {| form := setError (lit "Please enter your OpenAI API key") (form sys);
          app := app sys;
          callbacks := callbacks sys |}) /\
  (nonempty (trim k) = true ->
   startsWith k (lit "sk-") = false ->
   forall onApiKeySet,
     submit onApiKeySet sys =
       {| form := setError (lit "OpenAI API keys start with " ++ dquote ++ lit "sk-" ++ dquote)
                    (form sys);
          app := app sys;
          callbacks := callbacks sys |}) /\
  (nonempty k = true ->
   startsWith k (lit "sk-") = true ->
   forall onApiKeySet,
     onApiKeySet = onApiKeySet_with_model \/ onApiKeySet = onApiKeySet_key_only ->
     let sys' := submit onApiKeySet sys in
     manager_state (app sys') = Some Ready /\
     getItem (sessionStorage (app sys')) (lit "openai-api-key") = Some (trim k) /\
     app_apiKey (app sys') = Some (trim k) /\
     callbacks sys' = S (callbacks sys) /\
     error (form sys') = []).
Proof.
  intros Hun k. subst k. split; [|split].
  - intros Hblank cb. unfold submit, handleSubmit. rewrite Hblank. reflexivity.
  - intros Hnb Hsk cb. unfold submit, handleSubmit. rewrite Hnb, Hsk. reflexivity.
  - intros _ Hsk cb Hcb.
    pose proof (startsWith_sk_not_blank _ Hsk) as Hnb.
    assert (Hload : isLoading (app sys) = false).
    { unfold manager_state, render in Hun.
      destruct (isLoading (app sys)); [discriminate | reflexivity]. }
    unfold submit, handleSubmit. rewrite Hnb, Hsk. cbn [negb].
    destruct Hcb as [-> | ->]; cbv zeta; cbn [app form callbacks];
      unfold onApiKeySet_with_model, onApiKeySet_key_only,
             handleApiKeySet, handleApiKeySet_key, manager_state, render;
      cbn [sessionStorage app_apiKey isLoading is_set]; rewrite Hload, Hnb;
      unfold getItem, setItem.
    + repeat split. rewrite lookup_insert_ne by (vm_compute; discriminate).
      apply lookup_insert_eq.
    + repeat split. apply lookup_insert_eq.
Qed.

Lemma credential_submission_witness :
  error (form (submit onApiKeySet_key_only (Examples.setup_with (lit "   "))))
    = lit "Please enter your OpenAI API key" /\
  app (submit onApiKeySet_key_only (Examples.setup_with (lit "pk-123")))
    = app (Examples.setup_with (lit "pk-123")) /\
  getItem (sessionStorage (app (submit onApiKeySet_with_model
                                  (Examples.setup_with (lit "sk-abc  ")))))
          (lit "openai-api-key") = Some (lit "sk-abc").
Proof.
  split; [|split].
  - rewrite (proj1 (credential_submission (Examples.setup_with (lit "   ")) eq_refl)
               eq_refl onApiKeySet_key_only).
    reflexivity.
  - rewrite (proj1 (proj2 (credential_submission (Examples.setup_with (lit "pk-123")) eq_refl))
               eq_refl eq_refl onApiKeySet_key_only).
    reflexivity.
  - apply (proj2 (proj2 (credential_submission (Examples.setup_with (lit "sk-abc  ")) eq_refl))
             eq_refl eq_refl onApiKeySet_with_model).
    left. reflexivity.
Defined.

End KeyManagerProperties.

(** ** Properties of the client pipeline *)

Module PipelineProperties.
Import Route Pipeline.

Lemma run_snoc apiKey st events e :
  run apiKey st (events ++ [e]) = step apiKey (run apiKey st events) e.
Proof. unfold run. rewrite fold_left_app. reflexivity. Qed.

(** C2, as the pipeline has it.  After any history, the resolution of a
    call in flight sets the visible suggestions to its response and clears
    the loading flag, whether or not a later call has been dispatched since:
    the response that resolved last is the one shown. *)
Theorem last_resolved_response_shown apiKey st events call response :
  in_flight (run apiKey st events) call = true ->
  let st' := run apiKey st (events ++ [Resolve call response]) in
  suggestions st' = response /\ isLoading st' = false.
Proof.
  intros Hfl st'. subst st'. rewrite run_snoc. cbn [step]. rewrite Hfl.
  split; reflexivity.
Qed.

Import Examples.

Lemma last_resolved_response_shown_witness :
  suggestions (run test_key initial
                 ([Dispatch (lit "x"); Dispatch (lit "y"); Resolve 1 [suggestion_y]]
                  ++ [Resolve 0 [suggestion_x]]))
    = [suggestion_x].
Proof.
  apply (last_resolved_response_shown test_key initial
           [Dispatch (lit "x"); Dispatch (lit "y"); Resolve 1 [suggestion_y]]
           0 [suggestion_x]).
  vm_compute. reflexivity.
Defined.

(** C2 as stated fails: call 0 for the prompt [x] and then call 1 for the
    prompt [y] are dispatched, call 1 resolves, then call 0 resolves; the
    suggestions shown at the end are those of call 0, which call 1 had
    superseded. *)
Lemma stale_response_counterexample :
  let st := run test_key initial
              [Dispatch (lit "x"); Dispatch (lit "y");
               Resolve 1 [suggestion_y]; Resolve 0 [suggestion_x]] in
  posted st = [(lit "x", test_key); (lit "y", test_key)] /\
  latest_call st = Some 1%nat /\
  suggestions st = [suggestion_x] /\
  suggestions st <> [suggestion_y].
Proof.
  cbv zeta. repeat split; try (vm_compute; reflexivity).
  vm_compute. discriminate.
Qed.

End PipelineProperties.

(** ** Further properties of the refine endpoint *)

Module RouteBehaviour.
Import JSNumber JS Route Contract Behaviour RouteProperties.

Section Handler.
Context `{Platform}.

(** Every run of the handler takes one of two roads: it answers one of the
    three fixed errors without a call, or it makes the one call for the
    prompt and the resolved key and then answers the failure or the
    sanitized suggestions of the parsed content. *)
Lemma POST_cases request_json env upstream :
  (fst (POST request_json env upstream) = [] /\
   (snd (POST request_json env upstream) = failed \/
    snd (POST request_json env upstream) = invalid_prompt \/
    snd (POST request_json env upstream) = key_not_provided)) \/
  (exists body p key,
     request_json = Some body /\
     valid_request body env p key /\
     fst (POST request_json env upstream) = [chat_request (lit "Bearer " ++ key) p] /\
     (snd (POST request_json env upstream) = failed \/
      exists content suggestions,
        sanitize_suggestions p (parse_content p content) = Some suggestions /\
        snd (POST request_json env upstream) = ok_response suggestions)).
Proof.
  destruct request_json as [body|]; [|left; split; [reflexivity | left; reflexivity]].
  destruct (get body (lit "prompt")) as [prompt|] eqn:Hp.
  2:{ left. unfold POST, POST_body. rewrite bind_lift_Some, Hp.
      split; [reflexivity | left; reflexivity]. }
  destruct (get_defined _ _ (lit "apiKey") _ Hp) as [apiKey Hk].
  destruct (negb (ToBoolean prompt) || negb (jsstring_eqb (typeof prompt) (lit "string")))
    eqn:Hcond.
  { left. unfold POST, POST_body.
    rewrite bind_lift_Some, Hp, bind_lift_Some, Hk, bind_lift_Some, Hcond.
    split; [reflexivity | right; left; reflexivity]. }
  apply orb_false_iff in Hcond as [Htrue Hty].
  apply negb_false_iff in Htrue, Hty.
  destruct (typeof_string _ Hty) as [p ->]. cbn [ToBoolean] in Htrue.
  unfold POST. rewrite (POST_body_prompt _ _ _ _ _ Hp Htrue Hk). cbv zeta.
  destruct (ToBoolean (or_else apiKey (env_value env))) eqn:Hkey; cbn [negb].
  2:{ left. split; [reflexivity | right; right; reflexivity]. }
  destruct (ToString (or_else apiKey (env_value env))) as [key|] eqn:Hstr.
  2:{ left. split; [reflexivity | left; reflexivity]. }
  right. exists body, p, key. split; [reflexivity|].
  assert (Hvalid : valid_request body env p key).
  { split; [exact Hp|]. split; [exact Htrue|]. exists apiKey. auto. }
  split; [exact Hvalid|].
  rewrite bind_lift_Some.
  destruct (upstream (chat_request (lit "Bearer " ++ key) p)) as [|ok st json] eqn:Hup.
  { unfold bind, fetch. rewrite Hup. split; [reflexivity | left; reflexivity]. }
  rewrite (bind_fetch _ _ _ _ _ _ Hup).
  destruct ok; cbn [negb]; [|split; [reflexivity | left; reflexivity]].
  destruct json as [reply|]; [|split; [reflexivity | left; reflexivity]].
  rewrite bind_lift_Some.
  destruct (message_content reply) as [content|]; [|split; [reflexivity | left; reflexivity]].
  rewrite bind_lift_Some.
  destruct (ToBoolean content); cbn [negb]; [|split; [reflexivity | left; reflexivity]].
  destruct (sanitize_suggestions p (parse_content p content)) as [sugs|] eqn:Hs.
  - rewrite bind_lift_Some. split; [reflexivity|]. right. exists content, sugs. auto.
  - split; [reflexivity | left; reflexivity].
Qed.

Lemma map_indexed_length {A B} (f : nat -> A -> option B) (l : list A) :
  forall k bs, map_indexed f k l = Some bs -> length bs = length l.
Proof.
  induction l as [|a l IH]; intros k bs; cbn [map_indexed].
  - intros [= <-]. reflexivity.
  - destruct (f k a) as [b|]; [|discriminate].
    destruct (map_indexed f (S k) l) as [bs'|] eqn:Hbs; [|discriminate].
    intros [= <-]. cbn. f_equal. exact (IH _ _ Hbs).
Qed.

Lemma map_indexed_Forall {A B} (f : nat -> A -> option B) (P : B -> Prop) (l : list A) :
  (forall i a b, f i a = Some b -> P b) ->
  forall k bs, map_indexed f k l = Some bs -> Forall P bs.
Proof.
  intros HP. induction l as [|a l IH]; intros k bs; cbn [map_indexed].
  - intros [= <-]. constructor.
  - destruct (f k a) as [b|] eqn:Hb; [|discriminate].
    destruct (map_indexed f (S k) l) as [bs'|] eqn:Hbs; [|discriminate].
    intros [= <-]. constructor; eauto.
Qed.

Lemma map_indexed_None {A B} (f : nat -> A -> option B) (a : A) (l : list A) :
  (forall i, f i a = None) -> In a l -> forall k, map_indexed f k l = None.
Proof.
  intros Ha. induction l as [|x l IH]; intros Hin k; [contradiction|].
  cbn [map_indexed]. destruct (f k x) as [b|] eqn:Hb; [|reflexivity].
  destruct Hin as [-> | Hin]; [rewrite Ha in Hb; discriminate|].
  rewrite (IH Hin). reflexivity.
Qed.

Lemma of_nat_nonempty (n : nat) : nonempty (of_nat n) = true.
Proof.
  unfold of_nat, DecimalString.NilZero.string_of_uint.
  destruct (Nat.to_uint n); reflexivity.
Qed.

Lemma or_else_truthy (a b : value) : ToBoolean b = true -> ToBoolean (or_else a b) = true.
Proof. intros Hb. unfold or_else. destruct (ToBoolean a) eqn:Ha; assumption. Qed.

Lemma sanitize_fields p index e s :
  nonempty p = true -> sanitize p index e = Some s -> fields_present s.
Proof.
  intros Hp. unfold sanitize.
  destruct (get e (lit "id")); [|discriminate].
  destruct (get e (lit "refined")); [|discriminate].
  destruct (get e (lit "clarity")) as [c|]; [|discriminate].
  destruct (sanitize_clarity c); [|discriminate].
  destruct (get e (lit "explanation")); [|discriminate].
  intros [= <-]. unfold fields_present. cbn [id refined explanation].
  repeat split; apply or_else_truthy; cbn [ToBoolean];
    [apply of_nat_nonempty | exact Hp | reflexivity].
Qed.

Lemma sanitize_suggestions_shape p parsed sugs :
  nonempty p = true ->
  sanitize_suggestions p parsed = Some sugs ->
  (length sugs <= 3)%nat /\ Forall fields_present sugs.
Proof.
  intros Hp. unfold sanitize_suggestions.
  destruct (get parsed (lit "suggestions")) as [v|]; [|discriminate].
  destruct (or_else v (JArr [])) as [| | | | |elems|]; try discriminate.
  intros Hmap. split.
  - rewrite (map_indexed_length _ _ _ _ Hmap), length_take. lia.
  - eapply map_indexed_Forall; [|exact Hmap].
    intros i a b. apply sanitize_fields, Hp.
Qed.

(** *** Requests that never reach the upstream API *)

(** X1. A falsy prompt (the empty string, [0], [false]) is rejected like a
    missing one: status 400, [Invalid prompt provided], no call. *)
Theorem falsy_prompt_rejected body prompt env upstream :
  get body (lit "prompt") = Some prompt ->
  ToBoolean prompt = false ->
  POST (Some body) env upstream = ([], invalid_prompt).
Proof.
  intros Hp Hfalse. unfold POST, POST_body.
  destruct (get_defined _ _ (lit "apiKey") _ Hp) as [apiKey Hk].
  rewrite bind_lift_Some, Hp, bind_lift_Some, Hk, bind_lift_Some, Hfalse.
  reflexivity.
Qed.

(** X2. A request whose body cannot be read as JSON, or whose body is
    [null], is answered with status 500 and [Failed to refine prompt], not
    with 400, and no call is made. *)
Theorem unreadable_request_fails request_json env upstream :
  request_json = None \/ request_json = Some JNull ->
  POST request_json env upstream = ([], failed).
Proof. intros [-> | ->]; reflexivity. Qed.

(** *** Upstream failures *)

(** X3. Whatever way the upstream call fails (rejection, error status,
    body that is not JSON, no message content), the handler has made that
    one call and answers status 500 with the same fixed message: neither
    the upstream status nor its body reaches the response. *)
Theorem upstream_failure_masked body env upstream p key :
  valid_request body env p key ->
  upstream_fails upstream (chat_request (lit "Bearer " ++ key) p) ->
  POST (Some body) env upstream =
    ([chat_request (lit "Bearer " ++ key) p], failed).
Proof.
  intros (Hp & Hne & apiKey & Hk & Htrue & Hkey) Hfail.
  unfold POST. rewrite (POST_body_prompt _ _ _ _ _ Hp Hne Hk).
  cbv zeta. rewrite Htrue, Hkey. cbn [negb]. rewrite bind_lift_Some.
  destruct Hfail as [Hup | [(st & json & Hup) | [(st & Hup) | (st & reply & Hup & Hc)]]].
  - unfold bind, fetch. rewrite Hup. reflexivity.
  - rewrite (bind_fetch _ _ _ _ _ _ Hup). reflexivity.
  - rewrite (bind_fetch _ _ _ _ _ _ Hup). reflexivity.
  - rewrite (bind_fetch _ _ _ _ _ _ Hup). cbn [negb].
    rewrite bind_lift_Some.
    destruct Hc as [Hc | (c & Hc & Hfalse)]; rewrite Hc.
    + reflexivity.
    + rewrite bind_lift_Some, Hfalse. reflexivity.
Qed.

(** X4. The handler calls the upstream API at most once, and a call it
    makes is the chat request built from the prompt of the request and the
    resolved key: the handler sends nothing else upstream. *)
Theorem at_most_one_call request_json env upstream :
  (length (fst (POST request_json env upstream)) <= 1)%nat /\
  forall rq, In rq (fst (POST request_json env upstream)) ->
    exists body p key,
      request_json = Some body /\
      valid_request body env p key /\
      rq = chat_request (lit "Bearer " ++ key) p.
Proof.
  destruct (POST_cases request_json env upstream)
    as [[Hcalls _] | (body & p & key & Hreq & Hvalid & Hcalls & _)];
    rewrite Hcalls.
  - split; [cbn; lia | intros rq []].
  - split; [cbn; lia|].
    intros rq [<- | []]. exists body, p, key. auto.
Qed.

(** X5. Every response is the success with its suggestions, after exactly
    one call, or one of three fixed errors; and the two 400 errors are
    answered without any call. *)
Theorem response_classification request_json env upstream :
  let calls := fst (POST request_json env upstream) in
  let response := snd (POST request_json env upstream) in
  (exists suggestions, response = ok_response suggestions /\ length calls = 1%nat) \/
  response = failed \/
  (response = invalid_prompt /\ calls = []) \/
  (response = key_not_provided /\ calls = []).
Proof.
  cbv zeta.
  destruct (POST_cases request_json env upstream)
    as [[Hcalls [Hr | [Hr | Hr]]]
       | (body & p & key & _ & _ & Hcalls & [Hr | (content & sugs & _ & Hr)])];
    rewrite Hr, ?Hcalls; eauto 6.
Qed.

(** *** Shape of a success *)

(** X6. A successful response never has more than three suggestions, and
    its status is 200, whatever the upstream reply. *)
Theorem success_at_most_three request_json env upstream calls suggestions st :
  POST request_json env upstream
    = (calls, {| data := SuggestionsData suggestions; status := st |}) ->
  st = 200%Z /\ (length suggestions <= 3)%nat.
Proof.
  intros HPOST.
  destruct (POST_cases request_json env upstream)
    as [[_ [Hr | [Hr | Hr]]]
       | (body & p & key & _ & Hvalid & _ & [Hr | (content & sugs & Hs & Hr)])];
    rewrite HPOST in Hr; cbn [snd] in Hr; try discriminate.
  injection Hr as <- ->. split; [reflexivity|].
  destruct Hvalid as (_ & Hne & _).
  exact (proj1 (sanitize_suggestions_shape _ _ _ Hne Hs)).
Qed.

Lemma sanitize_defaults p index e s :
  sanitize p index e = Some s ->
  exists fid fref fexp,
    get e (lit "id") = Some fid /\
    get e (lit "refined") = Some fref /\
    get e (lit "explanation") = Some fexp /\
    id s = or_else fid (JStr (of_nat (index + 1))) /\
    refined s = or_else fref (JStr p) /\
    explanation s = or_else fexp (JStr (lit "General improvement suggestion.")).
Proof.
  unfold sanitize.
  destruct (get e (lit "id")) as [fid|]; [|discriminate].
  destruct (get e (lit "refined")) as [fref|]; [|discriminate].
  destruct (get e (lit "clarity")) as [c|]; [|discriminate].
  destruct (sanitize_clarity c); [|discriminate].
  destruct (get e (lit "explanation")) as [fexp|]; [|discriminate].
  intros [= <-]. exists fid, fref, fexp. repeat split.
Qed.

(** X7. In a successful response the [i]-th suggestion takes its [id],
    [refined] and [explanation] from the [i]-th entry of the suggestions
    array of the reply when the entry holds a truthy value there, and
    otherwise the default: the position [i + 1] printed in decimal, the
    prompt of the request, the text [General improvement suggestion.]; so
    the three fields are always truthy. *)
Theorem success_fields_present body env upstream p key content calls suggestions st :
  valid_request body env p key ->
  replies upstream (chat_request (lit "Bearer " ++ key) p) content ->
  POST (Some body) env upstream
    = (calls, {| data := SuggestionsData suggestions; status := st |}) ->
  exists v arr,
    get (parse_content p content) (lit "suggestions") = Some v /\
    or_else v (JArr []) = JArr arr /\
    forall i s, suggestions !! i = Some s ->
      exists e fid fref fexp,
        arr !! i = Some e /\
        get e (lit "id") = Some fid /\
        get e (lit "refined") = Some fref /\
        get e (lit "explanation") = Some fexp /\
        id s = (if ToBoolean fid then fid else JStr (of_nat (i + 1))) /\
        refined s = (if ToBoolean fref then fref else JStr p) /\
        explanation s =
          (if ToBoolean fexp then fexp
           else JStr (lit "General improvement suggestion.")) /\
        fields_present s.
Proof.
  intros Hreq Hrep HPOST.
  destruct (POST_success_entries _ _ _ _ _ _ _ _ _ Hreq Hrep HPOST)
    as (v & arr & Hv & Harr & Hnth).
  exists v, arr. split; [exact Hv|]. split; [exact Harr|].
  intros i s Hs. destruct (Hnth i s Hs) as (e & He & Hse).
  destruct (sanitize_defaults _ _ _ _ Hse) as (fid & fref & fexp & Hi & Hr & Hx & Hid & Href & Hexp).
  exists e, fid, fref, fexp.
  destruct Hreq as (_ & Hne & _).
  repeat (split; [assumption|]).
  exact (sanitize_fields _ _ _ _ Hne Hse).
Qed.

(** X8. A clarity that already lies in [1, 10] passes through the
    normalisation with its value unchanged. *)
Theorem clarity_in_range_unchanged (q : Q) :
  (1 <= q)%Q -> (q <= 10)%Q ->
  exists r, sanitize_clarity (JNum (Fin q)) = Some (Fin r) /\ (r == q)%Q.
Proof.
  intros Hlo Hhi. unfold sanitize_clarity, or_else. cbn [ToBoolean].
  rewrite truthy_positive.
  2:{ apply Qlt_le_trans with 1%Q; [reflexivity | exact Hlo]. }
  cbn [ToNumber].
  destruct (clamp_cases (Fin q)) as [[Hn _] | [Hr | [Hr | (q' & Hq & Hr & _)]]].
  - discriminate.
  - rewrite Hr. exists (inject_Z 1). split; [reflexivity|].
    apply Qle_antisym; [exact Hlo|].
    cbn in Hr.
    destruct (Qle_bool (inject_Z 10) q) eqn:H10; cbn in Hr.
    + discriminate.
    + destruct (Qle_bool q (inject_Z 1)) eqn:H1.
      * apply Qle_bool_iff in H1. exact H1.
      * injection Hr as ->. apply Qle_refl.
  - rewrite Hr. exists (inject_Z 10). split; [reflexivity|].
    apply Qle_antisym; [|exact Hhi].
    cbn in Hr.
    destruct (Qle_bool (inject_Z 10) q) eqn:H10; cbn in Hr.
    + apply Qle_bool_iff in H10. exact H10.
    + destruct (Qle_bool q (inject_Z 1)) eqn:H1.
      * discriminate.
      * injection Hr as ->. apply Qle_refl.
  - rewrite Hr. injection Hq as <-. exists q. split; [reflexivity | apply Qeq_refl].
Qed.

(** *** Replies of the wrong shape *)

(** X9. A reply that parses to [null], or whose [suggestions] is truthy
    and not an array, or whose array has [null] among its first three
    entries, makes the sanitizer throw: the response is status 500 with
    [Failed to refine prompt], not the fallback suggestion. *)
Theorem wrong_shape_fails body env upstream p key content parsed :
  valid_request body env p key ->
  replies upstream (chat_request (lit "Bearer " ++ key) p) content ->
  parses_to content parsed ->
  wrong_shape parsed ->
  POST (Some body) env upstream =
    ([chat_request (lit "Bearer " ++ key) p], failed).
Proof.
  intros Hreq Hrep Hparse Hshape.
  rewrite (POST_parsed _ _ _ _ _ _ Hreq Hrep), (parse_content_parsed _ _ _ Hparse).
  assert (Hnone : sanitize_suggestions p parsed = None); [|rewrite Hnone; reflexivity].
  unfold sanitize_suggestions.
  destruct Hshape as [-> | [(s & Hs & Htrue & Hnot) | (arr & Hs & Hin)]].
  - reflexivity.
  - rewrite Hs. unfold or_else. rewrite Htrue.
    destruct s; try reflexivity. exfalso. eapply Hnot. reflexivity.
  - rewrite Hs. unfold or_else. cbn [ToBoolean].
    apply (map_indexed_None _ JNull); [reflexivity | exact Hin].
Qed.

(** X10. Only the first three entries of the suggestions array count: two
    replies whose arrays agree on their first three entries get the same
    response, whatever follows in either array. *)
Theorem entries_after_third_ignored body env upstream1 upstream2 p key c1 c2 arr1 arr2 :
  valid_request body env p key ->
  replies upstream1 (chat_request (lit "Bearer " ++ key) p) c1 ->
  replies upstream2 (chat_request (lit "Bearer " ++ key) p) c2 ->
  get (parse_content p c1) (lit "suggestions") = Some (JArr arr1) ->
  get (parse_content p c2) (lit "suggestions") = Some (JArr arr2) ->
  firstn 3 arr1 = firstn 3 arr2 ->
  POST (Some body) env upstream1 = POST (Some body) env upstream2.
Proof.
  intros Hreq Hrep1 Hrep2 Hs1 Hs2 Heq.
  rewrite (POST_parsed _ _ _ _ _ _ Hreq Hrep1), (POST_parsed _ _ _ _ _ _ Hreq Hrep2).
  unfold sanitize_suggestions. rewrite Hs1, Hs2. unfold or_else. cbn [ToBoolean].
  rewrite Heq. reflexivity.
Qed.

End Handler.

Import Examples MoreExamples.

Lemma falsy_prompt_rejected_witness :
  @POST platform (Some empty_prompt_request) (Some test_key) (reply_with JNull)
    = ([], invalid_prompt).
Proof.
  apply (@falsy_prompt_rejected platform empty_prompt_request (JStr [])); reflexivity.
Defined.

Lemma unreadable_request_fails_witness :
  @POST platform None (Some test_key) (reply_with JNull) = ([], failed).
Proof.
  apply (@unreadable_request_fails platform). left. reflexivity.
Defined.

Lemma upstream_failure_masked_witness :
  @POST platform (Some test_request) (Some test_key) unauthorized
    = ([test_call], failed).
Proof.
  apply (@upstream_failure_masked platform test_request (Some test_key) unauthorized
           (lit "Test prompt") test_key).
  - exact test_request_valid.
  - right. left. exists 401%Z, None. reflexivity.
Defined.

Lemma at_most_one_call_witness :
  exists body p key,
    Some test_request = Some body /\
    @valid_request platform body (Some test_key) p key /\
    test_call = chat_request (lit "Bearer " ++ key) p.
Proof.
  apply (proj2 (@at_most_one_call platform (Some test_request) (Some test_key) unauthorized)).
  left. reflexivity.
Defined.

Lemma five_response :
  @POST platform (Some test_request) (Some test_key) (reply_with (JStr five_text))
    = ([test_call],
       {| data := SuggestionsData
                    [ sanitized_default 1 10; sanitized_default 2 1; sanitized_default 3 5 ];
          status := 200 |}).
Proof. vm_compute. reflexivity. Qed.

Lemma success_at_most_three_witness :
  (200 = 200)%Z /\
  (length [ sanitized_default 1 10; sanitized_default 2 1; sanitized_default 3 5 ] <= 3)%nat.
Proof.
  exact (@success_at_most_three platform _ _ _ _ _ _ five_response).
Defined.

Lemma success_fields_present_witness :
  id (sanitized_default 2 1) = JStr (lit "2") /\
  refined (sanitized_default 2 1) = JStr (lit "Test prompt") /\
  explanation (sanitized_default 2 1) = JStr (lit "General improvement suggestion.").
Proof.
  destruct (@success_fields_present platform test_request (Some test_key)
              (reply_with (JStr five_text)) (lit "Test prompt") test_key
              (JStr five_text) [test_call]
              [ sanitized_default 1 10; sanitized_default 2 1; sanitized_default 3 5 ]
              200%Z test_request_valid)
    as (v & arr & Hv & Harr & Hall).
  - apply reply_with_replies. reflexivity.
  - exact five_response.
  - vm_compute in Hv. injection Hv as <-.
    vm_compute in Harr. injection Harr as <-.
    destruct (Hall 1%nat (sanitized_default 2 1) eq_refl)
      as (e & fid & fref & fexp & He & Hi & Hr & Hx & Hid & Href & Hexp & _).
    vm_compute in He. injection He as <-.
    vm_compute in Hi. injection Hi as <-.
    vm_compute in Hr. injection Hr as <-.
    vm_compute in Hx. injection Hx as <-.
    split; [exact Hid|]. split; [exact Href | exact Hexp].
Defined.

Lemma clarity_in_range_unchanged_witness :
  exists r, @sanitize_clarity platform (JNum (Fin (15 # 2))) = Some (Fin r) /\
            (r == 15 # 2)%Q.
Proof.
  apply (@clarity_in_range_unchanged platform (15 # 2)); discriminate.
Defined.

Lemma wrong_shape_fails_witness :
  @POST platform (Some test_request) (Some test_key) (reply_with (JStr not_array_text))
    = ([test_call], failed).
Proof.
  apply (@wrong_shape_fails platform test_request (Some test_key)
           (reply_with (JStr not_array_text)) (lit "Test prompt") test_key
           (JStr not_array_text) not_array_value).
  - exact test_request_valid.
  - apply reply_with_replies. reflexivity.
  - exists not_array_text. split; reflexivity.
  - right. left. exists (JObj []). repeat split. intros arr. discriminate.
Defined.

Lemma entries_after_third_ignored_witness :
  @POST platform3 (Some test_request) (Some test_key) (reply_with (JStr five_text))
    = @POST platform3 (Some test_request) (Some test_key) (reply_with (JStr three_text)).
Proof.
  apply (@entries_after_third_ignored platform3 test_request (Some test_key)
           (reply_with (JStr five_text)) (reply_with (JStr three_text))
           (lit "Test prompt") test_key (JStr five_text) (JStr three_text)
           five_entries three_entries).
  - split; [reflexivity|]. split; [reflexivity|].
    exists JUndefined. repeat split; reflexivity.
  - apply reply_with_replies. reflexivity.
  - apply reply_with_replies. reflexivity.
  - reflexivity.
  - reflexivity.
  - reflexivity.
Defined.

End RouteBehaviour.

(** ** Further properties of the key/session manager *)

Module KeyManagerBehaviour.
Import KeyManager KeyManagerProperties.

Lemma trimStart_snoc (l : jsstring) (c : N) :
  is_white_space c = false -> trimStart (l ++ [c]) = trimStart l ++ [c].
Proof.
  intros Hc. induction l as [|a l IH]; simpl.
  - rewrite Hc. reflexivity.
  - destruct (is_white_space a); [exact IH | reflexivity].
Qed.

Lemma trimEnd_cons (c : N) (s : jsstring) :
  is_white_space c = false -> trimEnd (c :: s) = c :: trimEnd s.
Proof.
  intros Hc. unfold trimEnd. cbn [rev].
  rewrite (trimStart_snoc _ _ Hc), rev_app_distr. reflexivity.
Qed.

Lemma trimEnd_snoc_space (c : N) (s : jsstring) :
  is_white_space c = true -> trimEnd (s ++ [c]) = trimEnd s.
Proof.
  intros Hc. unfold trimEnd. rewrite rev_app_distr.
  change (rev [c] ++ rev s) with (c :: rev s).
  change (trimStart (c :: rev s))
    with (if is_white_space c then trimStart (rev s) else c :: rev s).
  rewrite Hc. reflexivity.
Qed.

Lemma trimStart_idempotent (s : jsstring) : trimStart (trimStart s) = trimStart s.
Proof.
  induction s as [|a s IH]; [reflexivity|]. cbn [trimStart].
  destruct (is_white_space a) eqn:Ha; [exact IH|].
  cbn [trimStart]. rewrite Ha. reflexivity.
Qed.

Lemma trimEnd_idempotent (s : jsstring) : trimEnd (trimEnd s) = trimEnd s.
Proof.
  unfold trimEnd. rewrite rev_involutive, trimStart_idempotent. reflexivity.
Qed.

(** The key [sk-...] keeps its prefix under [trim], which only cuts its
    end. *)
Lemma trim_sk (rest : jsstring) :
  trim (115 :: 107 :: 45 :: rest) = 115 :: 107 :: 45 :: trimEnd rest.
Proof.
  unfold trim. change (trimStart (115 :: 107 :: 45 :: rest)) with (115 :: 107 :: 45 :: rest).
  rewrite !trimEnd_cons by reflexivity. reflexivity.
Qed.

Lemma trim_sk_idempotent (rest : jsstring) :
  trim (trim (115 :: 107 :: 45 :: rest)) = trim (115 :: 107 :: 45 :: rest).
Proof. rewrite !trim_sk, trimEnd_idempotent. reflexivity. Qed.

(** What the mount effect makes of a storage. *)
Lemma reload_state (s : Storage) :
  manager_state (useEffect_mount (mount s)) =
    Some (if is_set (getItem s (lit "openai-api-key")) then Ready else Unconfigured) /\
  app_apiKey (useEffect_mount (mount s)) =
    (if is_set (getItem s (lit "openai-api-key"))
     then getItem s (lit "openai-api-key") else None).
Proof.
  unfold manager_state, render, useEffect_mount, mount.
  cbn [isLoading app_apiKey sessionStorage].
  destruct (is_set (getItem s (lit "openai-api-key"))) eqn:Hset; cbn [negb].
  - rewrite Hset. split; reflexivity.
  - split; reflexivity.
Qed.

Lemma key_model_distinct : lit "openai-api-key" <> lit "openai-model".
Proof. vm_compute. discriminate. Qed.

(** X11. Session round trip: once a non-empty key has been set (by either
    version of [handleApiKeySet]), a fresh mount of the shell on the same
    session storage comes up Ready with that key, without asking again;
    the stored model comes back too, the default replacing an empty one. *)
Theorem session_round_trip (key : jsstring) (model : option jsstring) (a : App) :
  nonempty key = true ->
  let reloaded := useEffect_mount (mount (sessionStorage (handleApiKeySet key model a))) in
  let reloaded_key := useEffect_mount (mount (sessionStorage (handleApiKeySet_key key a))) in
  manager_state reloaded = Some Ready /\
  app_apiKey reloaded = Some key /\
  selectedModel reloaded =
    Some (if nonempty (String_of model) then String_of model else lit "gpt-4o-mini") /\
  manager_state reloaded_key = Some Ready /\
  app_apiKey reloaded_key = Some key.
Proof.
  intros Hkey reloaded reloaded_key.
  assert (H1 : getItem (sessionStorage (handleApiKeySet key model a)) (lit "openai-api-key")
               = Some key).
  { unfold handleApiKeySet, getItem, setItem. cbn [sessionStorage].
    rewrite lookup_insert_ne by (intros Heq; symmetry in Heq; exact (key_model_distinct Heq)).
    apply lookup_insert_eq. }
  assert (H2 : getItem (sessionStorage (handleApiKeySet_key key a)) (lit "openai-api-key")
               = Some key).
  { unfold handleApiKeySet_key, getItem, setItem. cbn [sessionStorage].
    apply lookup_insert_eq. }
  destruct (reload_state (sessionStorage (handleApiKeySet key model a))) as [Hs Hk].
  destruct (reload_state (sessionStorage (handleApiKeySet_key key a))) as [Hs' Hk'].
  subst reloaded reloaded_key.
  rewrite Hs, Hk, Hs', Hk', H1, H2. cbn [is_set]. rewrite Hkey.
  repeat split.
  unfold useEffect_mount, mount, handleApiKeySet, getItem, setItem.
  cbn [selectedModel sessionStorage].
  rewrite lookup_insert_eq. cbn [is_set].
  destruct (nonempty (String_of model)); reflexivity.
Qed.

(** X12. Reset.  The reset of the shell with a model removes the key and
    the model from the session storage and nothing else; the reset of the
    shell without a model removes the key and nothing else, so a stored
    model stays.  After either, the manager is Unconfigured, and so is a
    fresh mount on the storage left behind. *)
Theorem reset_forgets_key (a : App) :
  isLoading a = false ->
  let a1 := handleApiKeyReset a in
  let a2 := handleApiKeyReset_key a in
  (manager_state a1 = Some Unconfigured /\
   getItem (sessionStorage a1) (lit "openai-api-key") = None /\
   getItem (sessionStorage a1) (lit "openai-model") = None /\
   (forall k, k <> lit "openai-api-key" -> k <> lit "openai-model" ->
              getItem (sessionStorage a1) k = getItem (sessionStorage a) k) /\
   manager_state (useEffect_mount (mount (sessionStorage a1))) = Some Unconfigured) /\
  (manager_state a2 = Some Unconfigured /\
   getItem (sessionStorage a2) (lit "openai-api-key") = None /\
   (forall k, k <> lit "openai-api-key" ->
              getItem (sessionStorage a2) k = getItem (sessionStorage a) k) /\
   manager_state (useEffect_mount (mount (sessionStorage a2))) = Some Unconfigured).
Proof.
  intros Hload a1 a2.
  assert (Hkey1 : getItem (sessionStorage a1) (lit "openai-api-key") = None).
  { subst a1. unfold handleApiKeyReset, getItem, removeItem. cbn [sessionStorage].
    rewrite lookup_delete_ne by (intros Heq; symmetry in Heq; exact (key_model_distinct Heq)).
    apply lookup_delete_eq. }
  assert (Hkey2 : getItem (sessionStorage a2) (lit "openai-api-key") = None).
  { subst a2. unfold handleApiKeyReset_key, getItem, removeItem. cbn [sessionStorage].
    apply lookup_delete_eq. }
  split.
  - split.
    { subst a1. unfold manager_state, render, handleApiKeyReset.
      cbn [isLoading app_apiKey is_set]. rewrite Hload. reflexivity. }
    split; [exact Hkey1|]. split.
    { subst a1. unfold handleApiKeyReset, getItem, removeItem. cbn [sessionStorage].
      apply lookup_delete_eq. }
    split.
    { intros k Hk Hm. subst a1. unfold handleApiKeyReset, getItem, removeItem.
      cbn [sessionStorage].
      rewrite !lookup_delete_ne by congruence. reflexivity. }
    rewrite (proj1 (reload_state _)), Hkey1. reflexivity.
  - split.
    { subst a2. unfold manager_state, render, handleApiKeyReset_key.
      cbn [isLoading app_apiKey is_set]. rewrite Hload. reflexivity. }
    split; [exact Hkey2|]. split.
    { intros k Hk. subst a2. unfold handleApiKeyReset_key, getItem, removeItem.
      cbn [sessionStorage].
      rewrite lookup_delete_ne by congruence. reflexivity. }
    rewrite (proj1 (reload_state _)), Hkey2. reflexivity.
Qed.

(** X13. The form invokes the callback exactly when the text typed starts
    with [sk-], and passes it that text trimmed; the blank check never
    decides on its own, since a text that starts with [sk-] is not
    blank. *)
Theorem callback_iff_prefix (st : SetupState) (key : jsstring) :
  snd (handleSubmit st) = Some key <->
  startsWith (apiKey st) (lit "sk-") = true /\ key = trim (apiKey st).
Proof.
  unfold handleSubmit. split.
  - destruct (nonempty (trim (apiKey st))); cbn [negb]; [|discriminate].
    destruct (startsWith (apiKey st) (lit "sk-")); cbn [negb]; [|discriminate].
    cbn [snd]. intros [= <-]. auto.
  - intros [Hsk ->]. rewrite (startsWith_sk_not_blank _ Hsk), Hsk. reflexivity.
Qed.

(** X14. A key the form hands over starts with [sk-] and has no white
    space around it, and typing it again is accepted with the same key:
    what reaches the session storage is in normal form. *)
Theorem accepted_key_normal (st st' : SetupState) (key : jsstring) :
  handleSubmit st = (st', Some key) ->
  startsWith key (lit "sk-") = true /\
  trim key = key /\
  forall st2, apiKey st2 = key -> snd (handleSubmit st2) = Some key.
Proof.
  intros Hsub.
  assert (Hsnd : snd (handleSubmit st) = Some key) by (rewrite Hsub; reflexivity).
  apply callback_iff_prefix in Hsnd as [Hsk ->].
  destruct (startsWith_sk _ Hsk) as [rest Hrest]. rewrite Hrest.
  assert (Hnormal : startsWith (trim (115 :: 107 :: 45 :: rest)) (lit "sk-") = true).
  { rewrite trim_sk. change (lit "sk-") with [115; 107; 45].
    simpl. destruct (trimEnd rest); reflexivity. }
  split; [exact Hnormal|]. split; [apply trim_sk_idempotent|].
  intros st2 Hst2. apply callback_iff_prefix. rewrite Hst2.
  split; [exact Hnormal | symmetry; apply trim_sk_idempotent].
Qed.

(** X15. The prefix is checked on the text as typed and the blank check on
    the trimmed text: white space before a key makes the form refuse it,
    white space after a key is cut and the key accepted. *)
Theorem surrounding_space_asymmetry (st : SetupState) (c : N) (k : jsstring) :
  is_white_space c = true ->
  (apiKey st = c :: k -> snd (handleSubmit st) = None) /\
  (startsWith k (lit "sk-") = true ->
   apiKey st = k ++ [c] -> snd (handleSubmit st) = Some (trim k)).
Proof.
  intros Hc. split.
  - intros Hst. destruct (snd (handleSubmit st)) as [key|] eqn:Hsub; [|reflexivity].
    apply callback_iff_prefix in Hsub as [Hsk _]. rewrite Hst in Hsk.
    destruct (startsWith_sk _ Hsk) as [rest [= -> _]]. discriminate.
  - intros Hsk Hst. apply callback_iff_prefix. rewrite Hst.
    destruct (startsWith_sk _ Hsk) as [rest ->].
    split; [change (lit "sk-") with [115; 107; 45]; simpl;
            destruct (rest ++ [c]); reflexivity|].
    change ((115 :: 107 :: 45 :: rest) ++ [c]) with (115 :: 107 :: 45 :: (rest ++ [c])).
    rewrite !trim_sk, (trimEnd_snoc_space _ _ Hc). reflexivity.
Qed.

Import Examples.

Lemma session_round_trip_witness :
  manager_state
    (useEffect_mount
       (mount (sessionStorage
                 (handleApiKeySet (lit "sk-abc") None (app (setup_with []))))))
    = Some Ready.
Proof.
  exact (proj1 (session_round_trip (lit "sk-abc") None (app (setup_with [])) eq_refl)).
Defined.

Lemma reset_forgets_key_witness :
  manager_state
    (handleApiKeyReset (handleApiKeySet (lit "sk-abc") None (app (setup_with []))))
    = Some Unconfigured /\
  manager_state
    (handleApiKeyReset_key (handleApiKeySet_key (lit "sk-abc") (app (setup_with []))))
    = Some Unconfigured.
Proof.
  split.
  - exact (proj1 (proj1 (reset_forgets_key
                           (handleApiKeySet (lit "sk-abc") None (app (setup_with [])))
                           eq_refl))).
  - exact (proj1 (proj2 (reset_forgets_key
                           (handleApiKeySet_key (lit "sk-abc") (app (setup_with [])))
                           eq_refl))).
Defined.

Lemma callback_iff_prefix_witness :
  snd (handleSubmit (form (setup_with (lit "sk-abc  ")))) = Some (lit "sk-abc").
Proof.
  apply (proj2 (callback_iff_prefix (form (setup_with (lit "sk-abc  "))) (lit "sk-abc"))).
  split; reflexivity.
Defined.

Lemma accepted_key_normal_witness :
  startsWith (lit "sk-abc") (lit "sk-") = true /\ trim (lit "sk-abc") = lit "sk-abc".
Proof.
  destruct (accepted_key_normal (form (setup_with (lit "sk-abc  ")))
              (setError [] (form (setup_with (lit "sk-abc  ")))) (lit "sk-abc") eq_refl)
    as (Hprefix & Htrim & _).
  split; [exact Hprefix | exact Htrim].
Defined.

Lemma surrounding_space_asymmetry_witness :
  snd (handleSubmit (form (setup_with (lit " sk-abc")))) = None /\
  snd (handleSubmit (form (setup_with (lit "sk-abc ")))) = Some (lit "sk-abc").
Proof.
  split.
  - exact (proj1 (surrounding_space_asymmetry (form (setup_with (lit " sk-abc")))
                    32 (lit "sk-abc") eq_refl) eq_refl).
  - exact (proj2 (surrounding_space_asymmetry (form (setup_with (lit "sk-abc ")))
                    32 (lit "sk-abc") eq_refl) eq_refl eq_refl).
Defined.

End KeyManagerBehaviour.

(** ** Further properties of the client pipeline *)

Module PipelineBehaviour.
Import Route Pipeline Behaviour PipelineProperties.

Lemma step_posted apiKey st e :
  posted (step apiKey st e) = posted st ++ posts_of apiKey [e].
Proof.
  destruct e as [prompt|call response|call err]; cbn [step posts_of].
  - unfold refinePrompt_start.
    destruct (nonempty (trim prompt)); cbn [negb posted]; [reflexivity|].
    rewrite app_nil_r. reflexivity.
  - destruct (in_flight st call); cbn [posted refinePrompt_resolved settle];
      rewrite app_nil_r; reflexivity.
  - destruct (in_flight st call); cbn [posted refinePrompt_rejected settle];
      rewrite app_nil_r; reflexivity.
Qed.

Lemma posts_of_cons apiKey e events :
  posts_of apiKey (e :: events) = posts_of apiKey [e] ++ posts_of apiKey events.
Proof.
  destruct e as [prompt| |]; cbn [posts_of]; try reflexivity.
  destruct (nonempty (trim prompt)); reflexivity.
Qed.

(** X16. The calls posted by a sequence of events are those of its
    dispatches of prompts that are not blank, one each and in order: a
    blank prompt never reaches the network, and the settling of a call
    posts nothing. *)
Theorem posted_calls apiKey events :
  forall st, posted (run apiKey st events) = posted st ++ posts_of apiKey events.
Proof.
  induction events as [|e events IH]; intros st.
  - cbn. rewrite app_nil_r. reflexivity.
  - change (run apiKey st (e :: events)) with (run apiKey (step apiKey st e) events).
    rewrite IH, step_posted, (posts_of_cons apiKey e events), app_assoc. reflexivity.
Qed.

Lemma step_settled_bounded apiKey st e :
  settled_bounded st -> settled_bounded (step apiKey st e).
Proof.
  intros Hb. destruct e as [prompt|call response|call err]; cbn [step].
  - unfold refinePrompt_start.
    destruct (nonempty (trim prompt)); cbn [negb]; [|exact Hb].
    intros c Hc. cbn [settled posted] in *. rewrite length_app. cbn.
    specialize (Hb c Hc). lia.
  - destruct (in_flight st call) eqn:Hfl; [|exact Hb].
    apply andb_true_iff in Hfl as [Hlt _]. apply bool_decide_eq_true in Hlt.
    intros c Hc. cbn [settled posted refinePrompt_resolved settle] in *.
    apply elem_of_union in Hc as [Hc | Hc]; [|exact (Hb c Hc)].
    apply elem_of_singleton in Hc. subst c. exact Hlt.
  - destruct (in_flight st call) eqn:Hfl; [|exact Hb].
    apply andb_true_iff in Hfl as [Hlt _]. apply bool_decide_eq_true in Hlt.
    intros c Hc. cbn [settled posted refinePrompt_rejected settle] in *.
    apply elem_of_union in Hc as [Hc | Hc]; [|exact (Hb c Hc)].
    apply elem_of_singleton in Hc. subst c. exact Hlt.
Qed.

Lemma step_loading apiKey st e :
  settled_bounded st ->
  (isLoading st = true -> exists call, in_flight st call = true) ->
  isLoading (step apiKey st e) = true ->
  exists call, in_flight (step apiKey st e) call = true.
Proof.
  intros Hb Hinv. destruct e as [prompt|call response|call err]; cbn [step].
  - unfold refinePrompt_start.
    destruct (nonempty (trim prompt)); cbn [negb].
    + intros _. exists (length (posted st)). unfold in_flight. cbn [posted settled].
      apply andb_true_iff. split; apply bool_decide_eq_true.
      * rewrite length_app. cbn. lia.
      * intros Hin. specialize (Hb _ Hin). lia.
    + cbn [isLoading]. intros Hl. destruct (Hinv Hl) as [c Hc]. exists c. exact Hc.
  - destruct (in_flight st call); [discriminate | exact Hinv].
  - destruct (in_flight st call); [discriminate | exact Hinv].
Qed.

Lemma run_invariant apiKey events :
  forall st,
    settled_bounded st ->
    (isLoading st = true -> exists call, in_flight st call = true) ->
    settled_bounded (run apiKey st events) /\
    (isLoading (run apiKey st events) = true ->
     exists call, in_flight (run apiKey st events) call = true).
Proof.
  induction events as [|e events IH]; intros st Hb Hinv; [split; assumption|].
  change (run apiKey st (e :: events)) with (run apiKey (step apiKey st e) events).
  apply IH; [apply step_settled_bounded, Hb | apply step_loading; assumption].
Qed.

Lemma initial_bounded : settled_bounded initial.
Proof. intros c Hc. cbn in Hc. apply not_elem_of_empty in Hc. contradiction. Qed.

(** X17. Whatever the events, the loading indicator is on only while some
    call is in flight: once every posted call has settled, it is off. *)
Theorem loading_needs_call_in_flight apiKey events :
  let st := run apiKey initial events in
  isLoading st = true -> exists call, in_flight st call = true.
Proof.
  cbv zeta. apply run_invariant; [exact initial_bounded | discriminate].
Qed.

(** X18. One dispatch followed by the settling of its own call: the call of
    a prompt that is not blank is in flight; when it resolves, the
    suggestions are its response and the error is cleared; when it
    rejects, the suggestions are empty and the error is its message; the
    loading flag is off in both cases. *)
Theorem dispatch_then_settle apiKey events prompt :
  nonempty (trim prompt) = true ->
  let st := run apiKey initial events in
  let call := length (posted st) in
  in_flight (step apiKey st (Dispatch prompt)) call = true /\
  (forall response,
     let st' := run apiKey st [Dispatch prompt; Resolve call response] in
     suggestions st' = response /\ error st' = None /\ isLoading st' = false) /\
  (forall err,
     let st' := run apiKey st [Dispatch prompt; Reject call err] in
     suggestions st' = [] /\ error st' = Some (error_message err) /\
     isLoading st' = false).
Proof.
  intros Hp st call.
  assert (Hb : settled_bounded st).
  { apply run_invariant; [exact initial_bounded | discriminate]. }
  assert (Hfl : in_flight (step apiKey st (Dispatch prompt)) call = true).
  { cbn [step]. unfold refinePrompt_start. rewrite Hp. cbn [negb].
    unfold in_flight. cbn [posted settled].
    apply andb_true_iff. split; apply bool_decide_eq_true.
    - rewrite length_app. cbn. subst call. lia.
    - intros Hin. specialize (Hb _ Hin). subst call. lia. }
  split; [exact Hfl|]. split.
  - intros response st'. subst st'. cbn [run fold_left]. cbn [step] in *.
    rewrite Hfl. unfold refinePrompt_start. rewrite Hp. repeat split.
  - intros err st'. subst st'. cbn [run fold_left]. cbn [step] in *.
    rewrite Hfl. unfold refinePrompt_start. rewrite Hp. repeat split.
Qed.

(** X19. After any history, the rejection of a call in flight empties the
    visible suggestions and shows its error, also when the call is stale
    and a later call had already filled them. *)
Theorem rejection_clears_suggestions apiKey st events call err :
  in_flight (run apiKey st events) call = true ->
  let st' := run apiKey st (events ++ [Reject call err]) in
  suggestions st' = [] /\ error st' = Some (error_message err) /\ isLoading st' = false.
Proof.
  intros Hfl st'. subst st'. rewrite run_snoc. cbn [step]. rewrite Hfl.
  repeat split.
Qed.

(** X20. The message shown for a rejection: the error of the response
    when it is not empty; else the message of the axios error when it is
    not empty; else [Failed to refine prompt]; and [An unexpected error
    occurred] for what is not an axios error.  It is never empty. *)
Theorem error_message_nonempty :
  (forall err, nonempty (error_message err) = true) /\
  (forall e message,
     nonempty e = true -> error_message (AxiosError (Some e) message) = e) /\
  (forall response_error message,
     response_error = None \/ response_error = Some [] ->
     nonempty message = true ->
     error_message (AxiosError response_error message) = message) /\
  (forall response_error,
     response_error = None \/ response_error = Some [] ->
     error_message (AxiosError response_error []) = lit "Failed to refine prompt") /\
  error_message OtherError = lit "An unexpected error occurred".
Proof.
  split; [|split; [|split; [|split]]].
  - intros [[[|c e]|] [|d m]|]; reflexivity.
  - intros [|c e] message He; [discriminate | reflexivity].
  - intros response_error [|d m] [-> | ->] Hm;
      [discriminate | discriminate | reflexivity | reflexivity].
  - intros response_error [-> | ->]; reflexivity.
  - reflexivity.
Qed.

Import Examples.

Lemma dispatch_then_settle_witness :
  suggestions (run test_key initial [Dispatch (lit "x"); Resolve 0 [suggestion_x]])
    = [suggestion_x].
Proof.
  exact (proj1 (proj1 (proj2 (dispatch_then_settle test_key [] (lit "x") eq_refl))
                  [suggestion_x])).
Defined.

Lemma error_message_nonempty_witness :
  error_message (AxiosError (Some (lit "OpenAI API key not configured")) (lit "400"))
    = lit "OpenAI API key not configured" /\
  error_message (AxiosError None (lit "Network Error")) = lit "Network Error".
Proof.
  split.
  - exact (proj1 (proj2 error_message_nonempty)
             (lit "OpenAI API key not configured") (lit "400") eq_refl).
  - exact (proj1 (proj2 (proj2 error_message_nonempty))
             None (lit "Network Error") (or_introl eq_refl) eq_refl).
Defined.

Lemma loading_needs_call_in_flight_witness :
  exists call,
    in_flight (run test_key initial [Dispatch (lit "x"); Dispatch (lit "y");
                                     Resolve 1 [suggestion_y]; Dispatch (lit "x")])
              call = true.
Proof.
  apply (loading_needs_call_in_flight test_key
           [Dispatch (lit "x"); Dispatch (lit "y"); Resolve 1 [suggestion_y];
            Dispatch (lit "x")]).
  reflexivity.
Defined.

Lemma rejection_clears_suggestions_witness :
  suggestions (run test_key initial
                 ([Dispatch (lit "x"); Dispatch (lit "y"); Resolve 1 [suggestion_y]]
                  ++ [Reject 0 OtherError]))
    = [].
Proof.
  refine (proj1 (rejection_clears_suggestions test_key initial
                   [Dispatch (lit "x"); Dispatch (lit "y"); Resolve 1 [suggestion_y]]
                   0 OtherError _)).
  vm_compute. reflexivity.
Defined.

End PipelineBehaviour.

(** ** The pipeline against the endpoint *)

Module EndToEnd.
Import JSNumber JS Route Contract Behaviour RouteProperties RouteBehaviour.
Import PipelineBehaviour.

Lemma trim_nonempty (s : jsstring) : nonempty (trim s) = true -> nonempty s = true.
Proof. destruct s; [discriminate | reflexivity]. Qed.

Lemma posts_of_In apiKey events prompt key :
  In (prompt, key) (posts_of apiKey events) ->
  key = apiKey /\ nonempty (trim prompt) = true.
Proof.
  induction events as [|e events IH]; [contradiction|].
  destruct e as [p| |]; cbn [posts_of]; try exact IH.
  destruct (nonempty (trim p)) eqn:Hp; [|exact IH].
  intros [[= <- <-] | Hin]; [auto | exact (IH Hin)].
Qed.

Section EndToEnd.
Context `{Platform}.

(** X21. End to end: with the manager Ready, every call the pipeline posts
    is a request the endpoint accepts, whatever the server default key is:
    the endpoint makes exactly one upstream call, whose [Authorization]
    header is [Bearer] followed by the key of the session and whose user
    message quotes the prompt as typed, and answers the suggestions or the
    failure, never a 400. *)
Theorem posted_call_reaches_upstream (a : KeyManager.App) (apiKey : jsstring)
    events call env upstream :
  KeyManager.manager_state a = Some KeyManager.Ready ->
  KeyManager.app_apiKey a = Some apiKey ->
  In call (Pipeline.posted (Pipeline.run apiKey Pipeline.initial events)) ->
  fst (POST (Some (refine_request_body call)) env upstream)
    = [chat_request (lit "Bearer " ++ apiKey) (fst call)] /\
  List.map Authorization (fst (POST (Some (refine_request_body call)) env upstream))
    = [lit "Bearer " ++ apiKey] /\
  List.map (fun rq => List.map content (messages (body rq)))
    (fst (POST (Some (refine_request_body call)) env upstream))
    = [[systemPrompt; lit "Original prompt: " ++ dquote ++ fst call ++ dquote]] /\
  (snd (POST (Some (refine_request_body call)) env upstream) = failed \/
   exists suggestions,
     snd (POST (Some (refine_request_body call)) env upstream) = ok_response suggestions).
Proof.
  intros Hready Hkey Hin.
  assert (Hne : nonempty apiKey = true).
  { unfold KeyManager.manager_state, KeyManager.render in Hready.
    destruct (KeyManager.isLoading a); [discriminate|].
    rewrite Hkey in Hready. cbn [KeyManager.is_set] in Hready.
    destruct (nonempty apiKey); [reflexivity | discriminate]. }
  rewrite posted_calls in Hin. cbn [Pipeline.posted Pipeline.initial app] in Hin.
  destruct call as [prompt key].
  destruct (posts_of_In _ _ _ _ Hin) as [-> Hp%trim_nonempty].
  assert (Hvalid : valid_request (refine_request_body (prompt, apiKey)) env prompt apiKey).
  { split; [reflexivity|]. split; [exact Hp|].
    exists (JStr apiKey). split; [reflexivity|].
    unfold or_else. cbn [ToBoolean]. rewrite Hne. auto. }
  pose proof (POST_calls _ env upstream _ _ Hvalid) as Hcalls.
  split; [exact Hcalls|].
  split; [rewrite Hcalls; reflexivity|].
  split; [rewrite Hcalls; reflexivity|].
  destruct (POST_cases (Some (refine_request_body (prompt, apiKey))) env upstream)
    as [[Hnil _] | (body & p & key & _ & _ & _ & [Hr | (content & sugs & _ & Hr)])].
  - rewrite Hcalls in Hnil. discriminate.
  - left. exact Hr.
  - right. exists sugs. exact Hr.
Qed.

End EndToEnd.

Import Examples MoreExamples.

Lemma posted_call_reaches_upstream_witness :
  List.map Authorization
    (fst (@POST platform (Some (refine_request_body (lit "y", lit "sk-abc")))
            (Some test_key) unauthorized))
    = [lit "Bearer sk-abc"].
Proof.
  refine (proj1 (proj2 (@posted_call_reaches_upstream platform
                   (KeyManager.handleApiKeySet_key (lit "sk-abc")
                      (KeyManager.app (setup_with [])))
                   (lit "sk-abc")
                   [Pipeline.Dispatch (lit "x"); Pipeline.Dispatch (lit "  ");
                    Pipeline.Dispatch (lit "y")]
                   (lit "y", lit "sk-abc") (Some test_key) unauthorized
                   eq_refl eq_refl _))).
  right. left. reflexivity.
Defined.

End EndToEnd.
